(** * Speech-token parsing and synthesis flow of [frontend/scripts/llasa_mlx.py]

    A shallow embedding of the text-to-speech script: the prompt it builds,
    the string surgery it performs on the generated stream, the loop
    [extract_speech_ids], and the hand-over to the codec and to the audio
    file.  Python strings are modelled by [string] (characters with code
    points below 256), Python integers by [Z], printing and calls to the
    external models by an event log, and exceptions by a sum type. *)

From Stdlib Require Import String Ascii List ZArith Lia Bool.
From Stdlib Require Import DecimalString DecimalPos.
Import ListNotations.

Local Open Scope list_scope.
Local Open Scope string_scope.

(** ** The Python built-ins the script relies on *)

Module Py.

(** [s.startswith(p)] *)
Definition startswith (s p : string) : bool := prefix p s.

(** [s[n:]] for [n >= 0] *)
Fixpoint drop (n : nat) (s : string) : string :=
  match n, s with
  | O, _ => s
  | S _, EmptyString => EmptyString
  | S k, String _ s' => drop k s'
  end.

(** [s.endswith(p)] *)
Definition endswith (s p : string) : bool :=
  (String.length p <=? String.length s)%nat
  && (drop (String.length s - String.length p) s =? p).

(** Normalisation of a slice bound against a sequence of length [n]:
    negative bounds count from the end, and everything is clamped to
    [0 .. n]. *)
Definition clamp (n i : Z) : Z :=
  if (i <? 0)%Z then Z.max (i + n) 0 else Z.min i n.

(** [s[start:stop]] *)
Definition slice (s : string) (start stop : Z) : string :=
  let n := Z.of_nat (String.length s) in
  let lo := clamp n start in
  let hi := clamp n stop in
  substring (Z.to_nat lo) (Z.to_nat (hi - lo)) s.

(** [s.replace("", new)]: [new] goes before every character and at the
    end. *)
Fixpoint interleave (new s : string) : string :=
  match s with
  | EmptyString => new
  | String c s' => new ++ String c (interleave new s')
  end.

(** Left-to-right scan of [s.replace(old, new)] for a non-empty [old]:
    [skip] counts the characters of a match that are still to be jumped
    over, so matches never overlap and replaced text is not rescanned. *)
Fixpoint replace_scan (old new : string) (skip : nat) (s : string) : string :=
  match s with
  | EmptyString => EmptyString
  | String c s' =>
      match skip with
      | S k => replace_scan old new k s'
      | O =>
          if prefix old s
          then new ++ replace_scan old new (String.length old - 1) s'
          else String c (replace_scan old new 0 s')
      end
  end.

(** [s.replace(old, new)] *)
Definition replace (s old new : string) : string :=
  match old with
  | EmptyString => interleave new s
  | String _ _ => replace_scan old new 0 s
  end.

(** [s.split(sep)] for a separator of one character, which is how the
    script calls it: the result is never empty, and adjacent separators
    give empty pieces. *)
Fixpoint split (s : string) (sep : ascii) : list string :=
  match s with
  | EmptyString => [EmptyString]
  | String c s' =>
      if Ascii.eqb c sep then EmptyString :: split s' sep
      else
        match split s' sep with
        | [] => [String c EmptyString]
        | piece :: pieces => String c piece :: pieces
        end
  end.

(** Characters that [int] skips around a literal: the ASCII blanks, and
    the two characters of the range modelled here that Unicode classes as
    white space. *)
Definition isspace (c : ascii) : bool :=
  let n := nat_of_ascii c in
  ((9 <=? n) && (n <=? 13) || (n =? 32) || (n =? 133) || (n =? 160))%nat.

(** Value of a decimal digit. *)
Definition digit (c : ascii) : option Z :=
  let n := nat_of_ascii c in
  if ((48 <=? n) && (n <=? 57))%nat then Some (Z.of_nat (n - 48)) else None.

Fixpoint lstrip (s : string) : string :=
  match s with
  | String c s' => if isspace c then lstrip s' else s
  | EmptyString => EmptyString
  end.

(** The run of digits of an integer literal, most significant first.
    Single underscores may separate digits; [prev_us] records that the
    previous character was one.  Returns the value and what follows the
    run. *)
Fixpoint digits (acc : Z) (prev_us : bool) (s : string) : option (Z * string) :=
  match s with
  | EmptyString => if prev_us then None else Some (acc, EmptyString)
  | String c s' =>
      match digit c with
      | Some d => digits (10 * acc + d) false s'
      | None =>
          if Ascii.eqb c "_"
          then (if prev_us then None else digits acc true s')
          else (if prev_us then None else Some (acc, s))
      end
  end.

(** The number of digits in that run, leading zeros included and
    underscores left out. *)
Fixpoint digit_run (s : string) : nat :=
  match s with
  | EmptyString => 0
  | String c s' =>
      match digit c with
      | Some _ => S (digit_run s')
      | None => if Ascii.eqb c "_" then digit_run s' else 0
      end
  end.

(** The interpreter's cap on the digits of a literal it converts
    ([sys.get_int_max_str_digits()]), at its default; the script does not
    change it. *)
Definition int_max_str_digits : nat := 4300.

(** An unsigned literal starts with a digit, has no more digits than the
    cap and is followed by blanks only. *)
Definition unsigned_literal (s : string) : option Z :=
  match s with
  | EmptyString => None
  | String c _ =>
      match digit c with
      | None => None
      | Some _ =>
          match digits 0 false s with
          | Some (v, rest) =>
              if (int_max_str_digits <? digit_run s)%nat then None
              else
                match lstrip rest with
                | EmptyString => Some v
                | String _ _ => None
                end
          | None => None
          end
      end
  end.

(** [int(s)] in base ten: blanks, an optional sign, the literal, blanks.
    [None] stands for [ValueError]. *)
Definition int (s : string) : option Z :=
  match lstrip s with
  | EmptyString => None
  | String c s' =>
      if Ascii.eqb c "+" then unsigned_literal s'
      else if Ascii.eqb c "-" then option_map Z.opp (unsigned_literal s')
      else unsigned_literal (String c s')
  end.

(** [str(n)] for an integer, as an f-string formats it. *)
Definition str (n : Z) : string :=
  NilZero.string_of_int (Z.to_int n).

End Py.

(** ** Exceptions, observable events and the monad threading them *)

Inductive exn : Type :=
| ValueError
| RuntimeError
| IndexError
| External (what : string).

(** Lines the parsing code prints, one constructor per [print]. *)
Inductive output : Type :=
| OutOutputs (outputs : string)
| OutSpeechTokens (speech_tokens : list string)
| OutUnexpected (token_str : string)
| OutSpeechIds (speech_ids : list Z).

(** A computation logs events of type [E], then returns or raises. *)
Definition M (E A : Type) : Type := (list E * (exn + A))%type.

Definition ret {E A : Type} (a : A) : M E A := ([], inr a).

Definition raise {E A : Type} (e : exn) : M E A := ([], inl e).

Definition emit {E : Type} (e : E) : M E unit := ([e], inr tt).

Definition bind {E A B : Type} (m : M E A) (k : A -> M E B) : M E B :=
  match m with
  | (log, inl e) => (log, inl e)
  | (log, inr a) => let (log', r) := k a in ((log ++ log')%list, r)
  end.

Notation "x <- m ;; k" := (bind m (fun x => k))
  (at level 61, m at next level, right associativity).
Notation "m ;;; k" := (bind m (fun _ => k))
  (at level 61, right associativity).

Definition events {E A : Type} (m : M E A) : list E := fst m.

Definition outcome {E A : Type} (m : M E A) : exn + A := snd m.

(** Re-tagging of the events of a sub-computation. *)
Definition lift {E F A : Type} (f : E -> F) (m : M E A) : M F A :=
  (map f (fst m), snd m).

(** Result of a collaborator that may fail. *)
Definition call {E A : Type} (r : exn + A) : M E A := ([], r).

(** ** [extract_speech_ids] and the parsing lines *)

(** The test of line 21. *)
Definition speech_shaped (token_str : string) : bool :=
  Py.startswith token_str "<|s_" && Py.endswith token_str "|>".

(** The body of the [for] loop, with [speech_ids] the list built so far. *)
Fixpoint extract_loop (speech_ids : list Z) (speech_tokens_str : list string)
  : M output (list Z) :=
  match speech_tokens_str with
  | [] => ret speech_ids
  | token_str :: rest =>
      if speech_shaped token_str then
        let num_str := Py.slice token_str 4 (-2) in
        match Py.int num_str with
        | None => raise ValueError
        | Some num => extract_loop (speech_ids ++ [num]) rest
        end
      else
        emit (OutUnexpected token_str) ;;;
        extract_loop speech_ids rest
  end.

Definition extract_speech_ids (speech_tokens_str : list string)
  : M output (list Z) :=
  extract_loop [] speech_tokens_str.

Definition SPEECH_GENERATION_START : string := "<|SPEECH_GENERATION_START|>".

(** Line 55. *)
Definition strip_start (outputs : string) : string :=
  Py.replace outputs SPEECH_GENERATION_START "".

(** Lines 63 and 66. *)
Definition speech_tokens_of (outputs : string) : list string :=
  Py.split (Py.replace outputs "><" ">,<") ",".

(** Lines 55 to 73: from the generated string to the list of ids. *)
Definition parse (outputs : string) : M output (list Z) :=
  let outputs := strip_start outputs in
  emit (OutOutputs outputs) ;;;
  let speech_tokens := speech_tokens_of outputs in
  emit (OutSpeechTokens speech_tokens) ;;;
  speech_ids <- extract_speech_ids speech_tokens ;;
  emit (OutSpeechIds speech_ids) ;;;
  ret speech_ids.

(** The tokens reported by line 27, in order. *)
Fixpoint unexpected (log : list output) : list string :=
  match log with
  | [] => []
  | OutUnexpected t :: log' => t :: unexpected log'
  | _ :: log' => unexpected log'
  end.

(** The stream up to the token list, lines 55 to 66. *)
Definition tokens_of_stream (outputs : string) : list string :=
  speech_tokens_of (strip_start outputs).

(** ** The prompt, lines 33 to 39 *)

Record message : Type := { role : string; content : string }.

Definition formatted_text (input_text : string) : string :=
  "<|TEXT_UNDERSTANDING_START|>" ++ input_text ++ "<|TEXT_UNDERSTANDING_END|>".

Definition chat (input_text : string) : list message :=
  [ {| role := "user";
       content := "Convert the text to speech:" ++ formatted_text input_text |};
    {| role := "assistant"; content := "<|SPEECH_GENERATION_START|>" |} ].

(** Line 15. *)
Definition input_text : string := "Hello, how are you doing today?".

(** ** The whole flow, lines 31 to 84 *)

(** What the flow does to the outside world: lines it prints, the two
    model calls, and the call that writes the audio file. *)
Inductive event (sample : Type) : Type :=
| Printed (line : output)
| PrintedInputIds (input_ids : list Z)
| Generate (prompt : list Z)
| DecodeCode (speech_tokens : list (list (list Z)))
| SfWrite (file : string) (data : list sample) (samplerate : Z).

Arguments Printed {sample} line.
Arguments PrintedInputIds {sample} input_ids.
Arguments Generate {sample} prompt.
Arguments DecodeCode {sample} speech_tokens.
Arguments SfWrite {sample} file data samplerate.

(** [int(x)] on a value that is an integer already. *)
Definition int_of_int (x : Z) : Z := x.

Definition fits_int64 (x : Z) : bool :=
  ((- 2 ^ 63 <=? x) && (x <? 2 ^ 63))%Z.

(** [torch.tensor] of a list of Python integers: a one-dimensional tensor,
    refused when an element does not fit 64 bits. *)
Definition torch_tensor {E : Type} (l : list Z) : M E (list Z) :=
  if forallb fits_int64 l then ret l else raise RuntimeError.

(** [t.unsqueeze(0)] *)
Definition unsqueeze0 {A : Type} (t : A) : list A := [t].

(** [t[0, 0, :]] *)
Definition index00 {E A : Type} (t : list (list (list A))) : M E (list A) :=
  match t with
  | (row :: _) :: _ => ret row
  | _ => raise IndexError
  end.

Section Flow.

Variable sample : Type.

(** The external collaborators: the tokenizer, the language model and the
    codec. *)
Variable apply_chat_template : list message -> exn + list Z.
Variable convert_tokens_to_ids : string -> Z.
Variable generate : list Z -> exn + string.
Variable decode_code : list (list (list Z)) -> exn + list (list (list sample)).

(** [sf.write], which may fail on the file it is given. *)
Variable sf_write : string -> list sample -> Z -> exn + unit.

Definition tts (input_text : string) : M (event sample) unit :=
  input_ids <- call (apply_chat_template (chat input_text)) ;;
  emit (PrintedInputIds input_ids) ;;;
  let speech_end_id := convert_tokens_to_ids "<|SPEECH_GENERATION_END|>" in
  emit (Generate input_ids) ;;;
  outputs <- call (generate input_ids) ;;
  speech_ids <- lift Printed (parse outputs) ;;
  let speech_tokens := map int_of_int speech_ids in
  speech_tokens <- torch_tensor speech_tokens ;;
  let speech_tokens := unsqueeze0 (unsqueeze0 speech_tokens) in
  emit (DecodeCode speech_tokens) ;;;
  gen_wav <- call (decode_code speech_tokens) ;;
  data <- index00 gen_wav ;;
  emit (SfWrite "gen.wav" data 16000%Z) ;;;
  call (sf_write "gen.wav" data 16000%Z).

Definition main : M (event sample) unit := tts input_text.

End Flow.

(** The files written during a run, in order. *)
Fixpoint writes {sample : Type} (log : list (event sample))
  : list (string * list sample * Z) :=
  match log with
  | [] => []
  | SfWrite file data samplerate :: log' => (file, data, samplerate) :: writes log'
  | _ :: log' => writes log'
  end.

(** The sequences handed to the codec during a run, in order. *)
Fixpoint decoded {sample : Type} (log : list (event sample))
  : list (list (list (list Z))) :=
  match log with
  | [] => []
  | DecodeCode t :: log' => t :: decoded log'
  | _ :: log' => decoded log'
  end.

(** ** Notions of the specification *)

(** The wire form of a speech token, [<|s_{n}|>]. *)
Definition speech_token (n : Z) : string := "<|s_" ++ Py.str n ++ "|>".

(** Concatenation of a list of strings with no separator. *)
Definition join (l : list string) : string := fold_right append "" l.

(** The stream the language model would emit for the ids [L]. *)
Definition stream_of (L : list Z) : string :=
  "<|SPEECH_GENERATION_START|>" ++ join (map speech_token L).

Fixpoint all_chars (p : ascii -> bool) (s : string) : bool :=
  match s with
  | EmptyString => true
  | String c s' => p c && all_chars p s'
  end.

Definition is_digit (c : ascii) : bool :=
  match Py.digit c with Some _ => true | None => false end.

(** The speech-token pattern, [<|s_] then one or more digits then [|>]. *)
Definition matches_speech_pattern (token_str : string) : bool :=
  speech_shaped token_str
  && negb (Py.slice token_str 4 (-2) =? "")
  && all_chars is_digit (Py.slice token_str 4 (-2)).

(** A token in angle brackets around [body]. *)
Definition bracketed (body : string) : string := "<" ++ body ++ ">".

(** No character of [s] is [c]. *)
Definition free_of (c : ascii) (s : string) : bool :=
  all_chars (fun x => negb (Ascii.eqb x c)) s.

(** A body that can sit between angle brackets without being cut by the
    tokenisation: no bracket and no comma inside. *)
Definition plain (body : string) : bool :=
  free_of "<" body && free_of ">" body && free_of "," body.

Definition START_body : string := "|SPEECH_GENERATION_START|".

(** The text line 22 cuts out of a token. *)
Definition num_str_of (token_str : string) : string :=
  Py.slice token_str 4 (-2).

(** A token the loop gets past: it fails the test of line 21, or [int]
    accepts the text line 22 cuts out of it. *)
Definition passable (token_str : string) : bool :=
  negb (speech_shaped token_str)
  || match Py.int (num_str_of token_str) with Some _ => true | None => false end.

(** The integers of the tokens that pass the test of line 21. *)
Fixpoint ids_of (tokens : list string) : list Z :=
  match tokens with
  | [] => []
  | token_str :: rest =>
      if speech_shaped token_str then
        match Py.int (num_str_of token_str) with
        | Some num => num :: ids_of rest
        | None => ids_of rest
        end
      else ids_of rest
  end.

(** The tokens that fail the test of line 21. *)
Definition skipped (tokens : list string) : list string :=
  filter (fun token_str => negb (speech_shaped token_str)) tokens.

(** A caller asking for the audio at [path] gets every write there. *)
Definition writes_only_to {sample : Type} (path : string)
  (log : list (event sample)) : Prop :=
  forall w, In w (writes log) -> fst (fst w) = path.

(** Stand-ins for the collaborators, for runs on concrete streams: the
    language model answers [outputs] whatever the prompt, and the codec
    hands its input back as the samples, and the write succeeds. *)
Definition stub_template (prompt : list message) : exn + list Z := inr [1%Z].

Definition stub_ids (token : string) : Z := 0%Z.

Definition stub_generate (outputs : string) (prompt : list Z) : exn + string :=
  inr outputs.

Definition stub_decode (speech_tokens : list (list (list Z)))
  : exn + list (list (list Z)) :=
  inr speech_tokens.

Definition stub_write (file : string) (data : list Z) (samplerate : Z)
  : exn + unit :=
  inr tt.

Definition stub_main (outputs : string) : M (event Z) unit :=
  main Z stub_template stub_ids (stub_generate outputs) stub_decode stub_write.

(** The number of decimal digits of [n], sign left out. *)
Definition decimal_digits (n : Z) : nat := String.length (Py.str (Z.abs n)).

(** The text, blanks skipped, starts with a minus sign. *)
Definition minus_signed (s : string) : bool :=
  match Py.lstrip s with
  | EmptyString => false
  | String c _ => Ascii.eqb c "-"
  end.

(** The literal of line 48. *)
Definition SPEECH_GENERATION_END : string := "<|SPEECH_GENERATION_END|>".

Definition END_body : string := "|SPEECH_GENERATION_END|".

(** The text between the brackets of [<|s_{n}|>]. *)
Definition speech_body (n : Z) : string := "|s_" ++ Py.str n ++ "|".

(** [k] zeros, as in ["0" * k]. *)
Fixpoint zeros (k : nat) : string :=
  match k with
  | O => EmptyString
  | S k' => String "0" (zeros k')
  end.

(** [old] occurs at no position of [s]. *)
Fixpoint occurs_nowhere (old s : string) : bool :=
  match s with
  | EmptyString => true
  | String _ s' => negb (prefix old s) && occurs_nowhere old s'
  end.

(** [s] starts with an opening bracket. *)
Definition starts_lt (s : string) : bool :=
  match s with
  | EmptyString => false
  | String c _ => Ascii.eqb c "<"
  end.

(** ** Strings *)

Section StringFacts.

Lemma append_assoc (x y z : string) : (x ++ y) ++ z = x ++ (y ++ z).
Proof.
  induction x as [|c x IH]; simpl; [reflexivity | now rewrite IH].
Qed.

Lemma append_empty_r (x : string) : x ++ "" = x.
Proof.
  induction x as [|c x IH]; simpl; [reflexivity | now rewrite IH].
Qed.

Lemma length_append (x y : string) :
  String.length (x ++ y) = String.length x + String.length y.
Proof.
  induction x as [|c x IH]; simpl; [reflexivity | now rewrite IH].
Qed.

Lemma prefix_append (p s : string) : prefix p (p ++ s) = true.
Proof.
  induction p as [|c p IH]; simpl; [now destruct s|].
  destruct (ascii_dec c c) as [_|n]; [exact IH | now elim n].
Qed.

Lemma prefix_split (p s : string) :
  prefix p s = true -> exists r, s = p ++ r.
Proof.
  revert s; induction p as [|c p IH]; intros s H.
  - now exists s.
  - destruct s as [|d s]; simpl in H; [discriminate|].
    destruct (ascii_dec c d) as [->|]; [|discriminate].
    destruct (IH _ H) as [r ->]. now exists r.
Qed.

Lemma prefix_head (h c : ascii) (t s : string) :
  h <> c -> prefix (String h t) (String c s) = false.
Proof.
  intros Hne; simpl. now destruct (ascii_dec h c).
Qed.

Lemma prefix_cons_inv (c d : ascii) (p s : string) :
  prefix (String c p) (String d s) = true -> c = d /\ prefix p s = true.
Proof.
  cbn [prefix]. destruct (ascii_dec c d); [auto | discriminate].
Qed.

Lemma drop_append (x y : string) : Py.drop (String.length x) (x ++ y) = y.
Proof.
  induction x as [|c x IH]; simpl; [now destruct y | exact IH].
Qed.

Lemma substring_append (x y : string) :
  substring 0 (String.length x) (x ++ y) = x.
Proof.
  induction x as [|c x IH]; simpl; [now destruct y | now rewrite IH].
Qed.

Lemma substring_skip (x y : string) (m : nat) :
  substring (String.length x) m (x ++ y) = substring 0 m y.
Proof.
  induction x as [|c x IH]; simpl; [reflexivity | exact IH].
Qed.

Lemma all_chars_append (p : ascii -> bool) (x y : string) :
  all_chars p (x ++ y) = all_chars p x && all_chars p y.
Proof.
  induction x as [|c x IH]; simpl; [reflexivity|].
  now rewrite IH, andb_assoc.
Qed.

Lemma all_chars_weaken (p q : ascii -> bool) (s : string) :
  (forall c, p c = true -> q c = true) ->
  all_chars p s = true -> all_chars q s = true.
Proof.
  intros Hpq; induction s as [|c s IH]; simpl; [reflexivity|].
  intros H; apply andb_prop in H as [Hc Hs].
  now rewrite (Hpq _ Hc), (IH Hs).
Qed.

Lemma all_chars_substring (p : ascii -> bool) (s : string) (n m : nat) :
  all_chars p s = true -> all_chars p (substring n m s) = true.
Proof.
  revert n m; induction s as [|c s IH]; intros n m H.
  - now destruct n, m.
  - simpl in H; apply andb_prop in H as [Hc Hs].
    destruct n as [|n]; [destruct m as [|m]|]; simpl; auto.
    now rewrite Hc, IH.
Qed.

Lemma free_of_cons (c d : ascii) (s : string) :
  free_of c (String d s) = negb (Ascii.eqb d c) && free_of c s.
Proof. reflexivity. Qed.

Lemma free_of_append (c : ascii) (x y : string) :
  free_of c (x ++ y) = free_of c x && free_of c y.
Proof. apply all_chars_append. Qed.

End StringFacts.

(** ** [replace] and [split] *)

Section ReplaceFacts.

Variables (h : ascii) (t new : string).

Lemma replace_scan_cons (c : ascii) (s : string) :
  Py.replace_scan (String h t) new 0 (String c s) =
  if prefix (String h t) (String c s)
  then new ++ Py.replace_scan (String h t) new (String.length t - 0) s
  else String c (Py.replace_scan (String h t) new 0 s).
Proof. reflexivity. Qed.

Lemma replace_scan_skip (x y : string) :
  Py.replace_scan (String h t) new (String.length x) (x ++ y) =
  Py.replace_scan (String h t) new 0 y.
Proof.
  induction x as [|c x IH]; simpl; [reflexivity | exact IH].
Qed.

Lemma replace_scan_match (y : string) :
  Py.replace_scan (String h t) new 0 (String h t ++ y) =
  new ++ Py.replace_scan (String h t) new 0 y.
Proof.
  change (String h t ++ y) with (String h (t ++ y)).
  rewrite replace_scan_cons.
  change (String h (t ++ y)) with (String h t ++ y).
  rewrite prefix_append, Nat.sub_0_r. now rewrite replace_scan_skip.
Qed.

Lemma replace_scan_other (c : ascii) (s : string) :
  h <> c ->
  Py.replace_scan (String h t) new 0 (String c s) =
  String c (Py.replace_scan (String h t) new 0 s).
Proof.
  intros Hne. now rewrite replace_scan_cons, prefix_head.
Qed.

Lemma replace_scan_nohead (x y : string) :
  free_of h x = true ->
  Py.replace_scan (String h t) new 0 (x ++ y) =
  x ++ Py.replace_scan (String h t) new 0 y.
Proof.
  induction x as [|c x IH]; intros Hx; [reflexivity|].
  rewrite free_of_cons in Hx. apply andb_prop in Hx as [Hc Hx].
  change (String c x ++ y) with (String c (x ++ y)).
  rewrite replace_scan_other, (IH Hx); [reflexivity|].
  intros ->. now rewrite Ascii.eqb_refl in Hc.
Qed.

Lemma replace_scan_keeps (p : ascii -> bool) (k : nat) (s : string) :
  all_chars p new = true -> all_chars p s = true ->
  all_chars p (Py.replace_scan (String h t) new k s) = true.
Proof.
  intros Hnew; revert k; induction s as [|c s IH]; intros k Hs;
    [reflexivity|].
  simpl in Hs; apply andb_prop in Hs as [Hc Hs].
  destruct k as [|k]; [|simpl; auto].
  rewrite replace_scan_cons.
  destruct (prefix (String h t) (String c s)).
  - now rewrite all_chars_append, Hnew, IH.
  - simpl. now rewrite Hc, IH.
Qed.

End ReplaceFacts.

Section SplitFacts.

Variable sep : ascii.

Lemma split_cons (c : ascii) (s : string) :
  Py.split (String c s) sep =
  if Ascii.eqb c sep then "" :: Py.split s sep
  else match Py.split s sep with
       | [] => [String c ""]
       | piece :: pieces => String c piece :: pieces
       end.
Proof. reflexivity. Qed.

Lemma split_nonempty (s : string) : Py.split s sep <> [].
Proof.
  destruct s as [|c s]; [discriminate|].
  rewrite split_cons.
  destruct (Ascii.eqb c sep); [discriminate|].
  now destruct (Py.split s sep).
Qed.

Lemma split_append_free (x y : string) :
  free_of sep x = true ->
  Py.split (x ++ y) sep =
  match Py.split y sep with
  | [] => [x]
  | piece :: pieces => (x ++ piece) :: pieces
  end.
Proof.
  induction x as [|c x IH]; intros Hx.
  - simpl. destruct (Py.split y sep) eqn:E; [|reflexivity].
    now apply split_nonempty in E.
  - rewrite free_of_cons in Hx. apply andb_prop in Hx as [Hc Hx].
    change (String c x ++ y) with (String c (x ++ y)).
    rewrite split_cons, (IH Hx).
    apply negb_true_iff in Hc. rewrite Hc.
    now destruct (Py.split y sep).
Qed.

Lemma split_free (x : string) :
  free_of sep x = true -> Py.split x sep = [x].
Proof.
  intros Hx. rewrite <- (append_empty_r x) at 1.
  rewrite (split_append_free _ _ Hx). simpl. now rewrite append_empty_r.
Qed.

Lemma split_at_sep (x y : string) :
  free_of sep x = true ->
  Py.split (x ++ String sep y) sep = x :: Py.split y sep.
Proof.
  intros Hx. rewrite (split_append_free _ _ Hx), split_cons.
  now rewrite Ascii.eqb_refl, append_empty_r.
Qed.

Lemma split_keeps (p : ascii -> bool) (s : string) :
  all_chars p s = true ->
  Forall (fun piece => all_chars p piece = true) (Py.split s sep).
Proof.
  induction s as [|c s IH]; intros Hs.
  - now repeat constructor.
  - simpl in Hs; apply andb_prop in Hs as [Hc Hs].
    rewrite split_cons. specialize (IH Hs).
    destruct (Ascii.eqb c sep); [now constructor|].
    destruct (Py.split s sep) as [|piece pieces].
    + repeat constructor. simpl. now rewrite Hc.
    + inversion IH as [|? ? Hp Hps]; subst.
      constructor; [simpl; now rewrite Hc, Hp | exact Hps].
Qed.

End SplitFacts.

(** ** Streams of bracketed tokens *)

Lemma join_cons (x : string) (l : list string) : join (x :: l) = x ++ join l.
Proof. reflexivity. Qed.

Lemma bracketed_append (b rest : string) :
  bracketed b ++ rest = String "<" (b ++ String ">" rest).
Proof.
  unfold bracketed. simpl. now rewrite append_assoc.
Qed.

Lemma plain_parts (b : string) :
  plain b = true ->
  free_of "<" b = true /\ free_of ">" b = true /\ free_of "," b = true.
Proof.
  unfold plain. intros H.
  apply andb_prop in H as [H H3]. apply andb_prop in H as [H1 H2]. auto.
Qed.

Lemma insert_commas_bodies (bs : list string) (b : string) :
  free_of ">" b = true ->
  Forall (fun b => free_of ">" b = true) bs ->
  Py.replace (b ++ String ">" (join (map bracketed bs))) "><" ">,<" =
  b ++ String ">" (join (map (fun b => String "," (bracketed b)) bs)).
Proof.
  unfold Py.replace.
  revert b; induction bs as [|b' bs IH]; intros b Hb Hbs.
  - now rewrite (replace_scan_nohead _ _ _ _ _ Hb).
  - inversion Hbs as [|? ? Hb' Hbs']; subst.
    rewrite (replace_scan_nohead _ _ _ _ _ Hb).
    cbn [map]. rewrite !join_cons, bracketed_append.
    change (String ">" (String "<" (b' ++ ?r))) with ("><" ++ (b' ++ r)).
    rewrite replace_scan_match, (IH _ Hb' Hbs').
    change (String "," (bracketed b') ++ ?r) with (String "," (bracketed b' ++ r)).
    now rewrite bracketed_append.
Qed.

Lemma split_bodies (bs : list string) (b : string) :
  free_of "," b = true ->
  Forall (fun b => free_of "," b = true) bs ->
  Py.split (b ++ String ">" (join (map (fun b => String "," (bracketed b)) bs)))
    "," =
  (b ++ ">") :: map bracketed bs.
Proof.
  revert b; induction bs as [|b' bs IH]; intros b Hb Hbs.
  - cbn [map join fold_right]. apply split_free.
    now rewrite free_of_append, Hb.
  - inversion Hbs as [|? ? Hb' Hbs']; subst.
    cbn [map]. rewrite join_cons.
    change (String "," (bracketed b') ++ ?r) with (String "," (bracketed b' ++ r)).
    change (b ++ String ">" (String "," ?r)) with (b ++ ">" ++ String "," r).
    rewrite <- append_assoc, split_at_sep
      by now rewrite free_of_append, Hb.
    rewrite bracketed_append.
    change (String "<" ?r) with ("<" ++ r) at 1.
    rewrite (split_append_free _ "<"), (IH _ Hb' Hbs') by reflexivity.
    reflexivity.
Qed.

(** Lines 63 and 66 cut a stream of bracketed tokens into its tokens. *)
Lemma speech_tokens_of_bracketed (b : string) (bs : list string) :
  Forall (fun b => plain b = true) (b :: bs) ->
  speech_tokens_of (join (map bracketed (b :: bs))) = map bracketed (b :: bs).
Proof.
  intros H. inversion H as [|? ? Hb Hbs]; subst.
  apply plain_parts in Hb as (_ & Hgt & Hcomma).
  assert (Hgts : Forall (fun b => free_of ">" b = true) bs).
  { eapply Forall_impl; [|exact Hbs]. intros x Hx. now apply plain_parts in Hx. }
  assert (Hcs : Forall (fun b => free_of "," b = true) bs).
  { eapply Forall_impl; [|exact Hbs]. intros x Hx. now apply plain_parts in Hx. }
  unfold speech_tokens_of. cbn [map]. rewrite join_cons, bracketed_append.
  unfold Py.replace.
  rewrite replace_scan_other by discriminate.
  pose proof (insert_commas_bodies bs b Hgt Hgts) as E.
  unfold Py.replace in E. rewrite E.
  rewrite split_cons. cbn [Ascii.eqb Bool.eqb].
  rewrite (split_bodies bs b Hcomma Hcs).
  reflexivity.
Qed.

Lemma prefix_body (x b rest : string) :
  free_of ">" x = true -> free_of ">" b = true ->
  prefix (x ++ ">") (b ++ String ">" rest) = true -> x = b.
Proof.
  revert b; induction x as [|c x IH]; intros b Hx Hb H.
  - destruct b as [|d b]; [reflexivity|].
    apply prefix_cons_inv in H as [<- _]. discriminate Hb.
  - rewrite free_of_cons in Hx. apply andb_prop in Hx as [Hc Hx].
    destruct b as [|d b]; apply prefix_cons_inv in H as [-> H].
    + discriminate Hc.
    + rewrite free_of_cons in Hb. apply andb_prop in Hb as [_ Hb].
      now rewrite (IH b Hx Hb H).
Qed.

(** Line 55 leaves a stream of bracketed tokens alone when none of them is
    the start sentinel. *)
Lemma strip_start_bracketed (bs : list string) :
  Forall (fun b => plain b = true /\ b <> START_body) bs ->
  strip_start (join (map bracketed bs)) = join (map bracketed bs).
Proof.
  unfold strip_start, Py.replace, SPEECH_GENERATION_START.
  induction bs as [|b bs IH]; intros H; [reflexivity|].
  inversion H as [|? ? [Hb Hne] Hbs]; subst.
  apply plain_parts in Hb as (Hlt & Hgt & _).
  cbn [map]. rewrite join_cons, bracketed_append.
  rewrite replace_scan_cons.
  destruct (prefix _ _) eqn:E.
  - exfalso. apply Hne. symmetry.
    apply (prefix_body START_body b (join (map bracketed bs)));
      [reflexivity | exact Hgt |].
    simpl in E. exact E.
  - rewrite (replace_scan_nohead _ _ _ _ _ Hlt).
    rewrite replace_scan_other by discriminate.
    now rewrite (IH Hbs).
Qed.

(** ** Speech tokens: shape, slice and integer literal *)

Lemma endswith_append (x p : string) : Py.endswith (x ++ p) p = true.
Proof.
  unfold Py.endswith. rewrite length_append.
  replace (String.length x + String.length p - String.length p)
    with (String.length x) by lia.
  rewrite drop_append, String.eqb_refl, andb_true_r.
  apply Nat.leb_le. lia.
Qed.

Lemma speech_shaped_wrap (x : string) :
  speech_shaped ("<|s_" ++ x ++ "|>") = true.
Proof.
  unfold speech_shaped, Py.startswith.
  rewrite prefix_append, <- append_assoc. apply endswith_append.
Qed.

Lemma slice_wrap (x : string) : Py.slice ("<|s_" ++ x ++ "|>") 4 (-2) = x.
Proof.
  unfold Py.slice, Py.clamp.
  rewrite !length_append.
  change (String.length "<|s_") with 4. change (String.length "|>") with 2.
  change (4 <? 0)%Z with false. change (-2 <? 0)%Z with true. cbv iota.
  replace (Z.to_nat (Z.min 4 (Z.of_nat (4 + (String.length x + 2)))))
    with (String.length "<|s_") by (simpl; lia).
  rewrite substring_skip.
  replace (Z.to_nat _) with (String.length x) by lia.
  apply substring_append.
Qed.

Ltac eval_digit :=
  repeat match goal with
  | |- context [Py.digit ?c] =>
      let v := eval vm_compute in (Py.digit c) in
      change (Py.digit c) with v
  end.

Lemma digits_uint_acc (d : Decimal.uint) (p : positive) :
  Py.digits (Zpos p) false (NilEmpty.string_of_uint d) =
  Some (Zpos (Pos.of_uint_acc d p), "").
Proof.
  revert p; induction d; intros p;
    cbn [NilEmpty.string_of_uint Py.digits Pos.of_uint_acc];
    [reflexivity|..];
    eval_digit; cbv iota; rewrite <- IHd; f_equal; lia.
Qed.

Lemma digits_uint (d : Decimal.uint) :
  Py.digits 0 false (NilEmpty.string_of_uint d) =
  Some (Z.of_N (Pos.of_uint d), "").
Proof.
  induction d;
    cbn [NilEmpty.string_of_uint Py.digits Pos.of_uint];
    [reflexivity|..];
    eval_digit; cbv iota; [exact IHd|..];
    (match goal with
     | |- Py.digits ?z _ _ = _ => change z with (Zpos (Z.to_pos z))
     end);
    rewrite digits_uint_acc; reflexivity.
Qed.

Lemma uint_all_digits (d : Decimal.uint) :
  all_chars is_digit (NilEmpty.string_of_uint d) = true.
Proof.
  induction d; cbn [NilEmpty.string_of_uint all_chars];
    [reflexivity|..]; rewrite IHd; reflexivity.
Qed.

Lemma digit_run_uint (d : Decimal.uint) :
  Py.digit_run (NilEmpty.string_of_uint d)
  = String.length (NilEmpty.string_of_uint d).
Proof.
  induction d; cbn [NilEmpty.string_of_uint Py.digit_run String.length];
    [reflexivity|..]; eval_digit; cbv iota; now rewrite IHd.
Qed.

Lemma unsigned_literal_uint (d : Decimal.uint) :
  d <> Decimal.Nil ->
  String.length (NilEmpty.string_of_uint d) <= Py.int_max_str_digits ->
  Py.unsigned_literal (NilEmpty.string_of_uint d) = Some (Z.of_N (Pos.of_uint d)).
Proof.
  intros Hd Hcap. pose proof (digits_uint d) as E.
  pose proof (digit_run_uint d) as R.
  assert (C : (Py.int_max_str_digits
               <? Py.digit_run (NilEmpty.string_of_uint d))%nat = false)
    by (apply Nat.ltb_ge; now rewrite R).
  destruct d; [now elim Hd|..];
    unfold Py.unsigned_literal;
    cbn [NilEmpty.string_of_uint] in *; eval_digit; cbv iota;
    rewrite E, C; reflexivity.
Qed.

Lemma int_uint (d : Decimal.uint) :
  d <> Decimal.Nil ->
  String.length (NilEmpty.string_of_uint d) <= Py.int_max_str_digits ->
  Py.int (NilEmpty.string_of_uint d) = Some (Z.of_N (Pos.of_uint d)).
Proof.
  intros Hd Hcap. rewrite <- (unsigned_literal_uint d Hd Hcap).
  destruct d; [now elim Hd|..]; reflexivity.
Qed.

Lemma str_pos (p : positive) :
  Py.str (Zpos p) = NilEmpty.string_of_uint (Pos.to_uint p)
  /\ Pos.to_uint p <> Decimal.Nil.
Proof.
  assert (Hne : Pos.to_uint p <> Decimal.Nil).
  { intros E. pose proof (Unsigned.of_to p) as H. rewrite E in H. discriminate H. }
  split; [|exact Hne].
  unfold Py.str, NilZero.string_of_int, NilZero.string_of_uint.
  cbn [Z.to_int]. now destruct (Pos.to_uint p).
Qed.

(** [int] reads back what [str] prints, within the cap on digits. *)
Lemma int_str (n : Z) :
  (0 <= n)%Z -> decimal_digits n <= Py.int_max_str_digits ->
  Py.int (Py.str n) = Some n.
Proof.
  unfold decimal_digits.
  intros Hn Hcap. destruct n as [|p|p]; [reflexivity | | lia].
  cbn [Z.abs] in Hcap. destruct (str_pos p) as [E Hne]. rewrite E in *.
  now rewrite (int_uint _ Hne Hcap), Unsigned.of_to.
Qed.

Lemma str_all_digits (n : Z) :
  (0 <= n)%Z -> all_chars is_digit (Py.str n) = true.
Proof.
  intros Hn. destruct n as [|p|p]; [reflexivity | | lia].
  destruct (str_pos p) as [-> _]. apply uint_all_digits.
Qed.

Lemma digit_not (c x : ascii) :
  is_digit c = false -> is_digit x = true -> negb (Ascii.eqb x c) = true.
Proof.
  intros Hc Hx. destruct (Ascii.eqb_spec x c) as [->|]; [|reflexivity].
  now rewrite Hc in Hx.
Qed.

Lemma speech_token_bracketed (n : Z) :
  speech_token n = bracketed ("|s_" ++ Py.str n ++ "|").
Proof.
  unfold speech_token, bracketed. simpl. now rewrite append_assoc.
Qed.

Lemma speech_body_plain (n : Z) :
  (0 <= n)%Z ->
  plain ("|s_" ++ Py.str n ++ "|") = true /\ "|s_" ++ Py.str n ++ "|" <> START_body.
Proof.
  intros Hn. split; [|discriminate].
  pose proof (str_all_digits n Hn) as Hd.
  assert (F : forall c, is_digit c = false -> free_of c (Py.str n) = true).
  { intros c Hc. apply (all_chars_weaken is_digit); [|exact Hd].
    intros x. now apply digit_not. }
  unfold plain. rewrite !free_of_append, !F by reflexivity. reflexivity.
Qed.

(** ** The loop of [extract_speech_ids] *)

Section Loop.

Variables (speech_ids : list Z) (token_str : string) (rest : list string).

Lemma extract_loop_skip :
  speech_shaped token_str = false ->
  extract_loop speech_ids (token_str :: rest) =
  (OutUnexpected token_str :: events (extract_loop speech_ids rest),
   outcome (extract_loop speech_ids rest)).
Proof.
  intros H. cbn [extract_loop]. rewrite H.
  unfold bind, emit, events, outcome.
  now destruct (extract_loop speech_ids rest) as [log [e|ids]].
Qed.

Lemma extract_loop_take (num : Z) :
  speech_shaped token_str = true ->
  Py.int (num_str_of token_str) = Some num ->
  extract_loop speech_ids (token_str :: rest) =
  extract_loop (speech_ids ++ [num]) rest.
Proof.
  unfold num_str_of. intros H E. cbn [extract_loop]. now rewrite H, E.
Qed.

Lemma extract_loop_raise :
  speech_shaped token_str = true ->
  Py.int (num_str_of token_str) = None ->
  extract_loop speech_ids (token_str :: rest) = ([], inl ValueError).
Proof.
  unfold num_str_of. intros H E. cbn [extract_loop]. now rewrite H, E.
Qed.

End Loop.

Lemma extract_loop_passable (tokens : list string) (acc : list Z) :
  forallb passable tokens = true ->
  extract_loop acc tokens =
  (map OutUnexpected (skipped tokens), inr (acc ++ ids_of tokens)%list).
Proof.
  revert acc; induction tokens as [|t tokens IH]; intros acc H.
  - cbn. now rewrite app_nil_r.
  - cbn [forallb] in H. apply andb_prop in H as [Ht H].
    unfold passable in Ht. unfold skipped. cbn [filter ids_of].
    destruct (speech_shaped t) eqn:Es.
    + destruct (Py.int (num_str_of t)) as [num|] eqn:Ei; [|discriminate].
      rewrite (extract_loop_take _ _ _ num Es Ei), (IH _ H).
      cbn [negb]. now rewrite <- app_assoc.
    + rewrite (extract_loop_skip _ _ _ Es), (IH _ H). reflexivity.
Qed.

Lemma extract_loop_stuck (tokens : list string) (acc : list Z) :
  forallb passable tokens = false ->
  outcome (extract_loop acc tokens) = inl ValueError.
Proof.
  revert acc; induction tokens as [|t tokens IH]; intros acc H;
    [discriminate|].
  cbn [forallb] in H. unfold passable in H at 1.
  destruct (speech_shaped t) eqn:Es.
  - destruct (Py.int (num_str_of t)) as [num|] eqn:Ei.
    + rewrite (extract_loop_take _ _ _ num Es Ei). now apply IH.
    + now rewrite (extract_loop_raise _ _ _ Es Ei).
  - rewrite (extract_loop_skip _ _ _ Es). now apply IH.
Qed.

Lemma extract_loop_speech_tokens (L : list Z) (acc : list Z) :
  Forall (fun n => (0 <= n)%Z /\ decimal_digits n <= Py.int_max_str_digits) L ->
  extract_loop acc (map speech_token L) = ([], inr (acc ++ L)%list).
Proof.
  revert acc; induction L as [|n L IH]; intros acc H.
  - cbn. now rewrite app_nil_r.
  - inversion H as [|? ? [Hn Hcap] HL]; subst. cbn [map].
    rewrite (extract_loop_take _ _ _ n).
    + rewrite (IH _ HL). now rewrite <- app_assoc.
    + apply speech_shaped_wrap.
    + unfold num_str_of, speech_token. rewrite slice_wrap. now apply int_str.
Qed.

(** The parsing lines, in terms of what the loop does. *)
Lemma parse_unfold (outputs : string) :
  parse outputs =
  match extract_speech_ids (tokens_of_stream outputs) with
  | (log, inl e) =>
      (OutOutputs (strip_start outputs)
       :: OutSpeechTokens (tokens_of_stream outputs) :: log, inl e)
  | (log, inr speech_ids) =>
      (OutOutputs (strip_start outputs)
       :: OutSpeechTokens (tokens_of_stream outputs)
       :: log ++ [OutSpeechIds speech_ids], inr speech_ids)%list
  end.
Proof.
  unfold parse, tokens_of_stream.
  now destruct (extract_speech_ids _) as [log [e|ids]].
Qed.

Lemma unexpected_app (l1 l2 : list output) :
  unexpected (l1 ++ l2) = (unexpected l1 ++ unexpected l2)%list.
Proof.
  induction l1 as [|[| |t|] l1 IH]; cbn; [reflexivity|..]; now rewrite IH.
Qed.

Lemma unexpected_map (tokens : list string) :
  unexpected (map OutUnexpected tokens) = tokens.
Proof.
  induction tokens as [|t tokens IH]; cbn; [reflexivity | now rewrite IH].
Qed.

(** The stream of a list of ids is cut back into its tokens by lines 55
    to 66. *)
Lemma strip_start_stream_of (L : list Z) :
  Forall (fun n => (0 <= n)%Z) L ->
  strip_start (stream_of L) = join (map speech_token L).
Proof.
  intros H.
  assert (E : map speech_token L
              = map bracketed (map (fun n => "|s_" ++ Py.str n ++ "|") L)).
  { rewrite map_map. apply map_ext. exact speech_token_bracketed. }
  pose proof (strip_start_bracketed (map (fun n => "|s_" ++ Py.str n ++ "|") L))
    as S.
  rewrite <- E in S. unfold strip_start, Py.replace in *.
  unfold stream_of. unfold SPEECH_GENERATION_START in *.
  rewrite replace_scan_match. cbn [append]. apply S.
  apply Forall_map. eapply Forall_impl; [|exact H].
  intros n Hn. now apply speech_body_plain.
Qed.

Lemma speech_tokens_of_join (n : Z) (L : list Z) :
  Forall (fun n => (0 <= n)%Z) (n :: L) ->
  speech_tokens_of (join (map speech_token (n :: L))) = map speech_token (n :: L).
Proof.
  intros H.
  assert (E : map speech_token (n :: L)
              = map bracketed (map (fun n => "|s_" ++ Py.str n ++ "|") (n :: L))).
  { rewrite map_map. apply map_ext. exact speech_token_bracketed. }
  rewrite E. cbn [map]. apply speech_tokens_of_bracketed.
  change (Forall (fun b => plain b = true)
            (map (fun n => "|s_" ++ Py.str n ++ "|") (n :: L))).
  apply Forall_map. eapply Forall_impl; [|exact H].
  intros m Hm. now apply speech_body_plain.
Qed.

(** ** Integers read from text without a minus sign *)

Lemma digit_nonneg (c : ascii) (d : Z) : Py.digit c = Some d -> (0 <= d)%Z.
Proof.
  unfold Py.digit. destruct (_ && _); [|discriminate].
  intros [= <-]. lia.
Qed.

Lemma digits_nonneg (s : string) (acc : Z) (prev_us : bool) (v : Z) (r : string) :
  (0 <= acc)%Z -> Py.digits acc prev_us s = Some (v, r) -> (0 <= v)%Z.
Proof.
  revert acc prev_us; induction s as [|c s IH]; intros acc prev_us Hacc H.
  - cbn in H. destruct prev_us; [discriminate|]. now injection H as <- _.
  - cbn [Py.digits] in H. destruct (Py.digit c) as [d|] eqn:Ed.
    + apply digit_nonneg in Ed. eapply IH; [|exact H]. lia.
    + destruct (Ascii.eqb c "_"), prev_us; try discriminate.
      * apply (IH _ _ Hacc H).
      * now injection H as <- _.
Qed.

Lemma unsigned_literal_nonneg (s : string) (v : Z) :
  Py.unsigned_literal s = Some v -> (0 <= v)%Z.
Proof.
  unfold Py.unsigned_literal. destruct s as [|c s]; [discriminate|].
  destruct (Py.digit c); [|discriminate].
  destruct (Py.digits 0 false (String c s)) as [[w r]|] eqn:E; [|discriminate].
  destruct (_ <? _)%nat; [discriminate|].
  destruct (Py.lstrip r); [|discriminate].
  intros [= <-]. apply (digits_nonneg _ _ _ _ _ (Z.le_refl 0) E).
Qed.

Lemma lstrip_keeps (p : ascii -> bool) (s : string) :
  all_chars p s = true -> all_chars p (Py.lstrip s) = true.
Proof.
  induction s as [|c s IH]; intros H; [reflexivity|].
  cbn [Py.lstrip]. destruct (Py.isspace c); [|exact H].
  cbn in H. apply andb_prop in H as [_ H]. now apply IH.
Qed.

Lemma int_nonneg (s : string) (v : Z) :
  free_of "-" s = true -> Py.int s = Some v -> (0 <= v)%Z.
Proof.
  intros Hs. apply lstrip_keeps in Hs. unfold Py.int.
  destruct (Py.lstrip s) as [|c s']; [discriminate|].
  change (free_of "-" (String c s') = true) in Hs.
  rewrite free_of_cons in Hs. apply andb_prop in Hs as [Hc _].
  apply negb_true_iff in Hc. rewrite Hc.
  destruct (Ascii.eqb c "+"); apply unsigned_literal_nonneg.
Qed.

Lemma tokens_keep (p : ascii -> bool) (outputs : string) :
  p ","%char = true -> p ">"%char = true -> p "<"%char = true ->
  all_chars p outputs = true ->
  Forall (fun t => all_chars p t = true) (tokens_of_stream outputs).
Proof.
  intros Hc Hgt Hlt H.
  unfold tokens_of_stream, speech_tokens_of, strip_start, Py.replace,
    SPEECH_GENERATION_START.
  apply split_keeps. apply replace_scan_keeps.
  - cbn. now rewrite Hc, Hgt, Hlt.
  - now apply replace_scan_keeps.
Qed.

Lemma ids_of_nonneg (tokens : list string) :
  Forall (fun t => free_of "-" t = true) tokens ->
  Forall (fun n => (0 <= n)%Z) (ids_of tokens).
Proof.
  induction 1 as [|t tokens Ht _ IH]; cbn [ids_of]; [constructor|].
  destruct (speech_shaped t); [|exact IH].
  destruct (Py.int (num_str_of t)) as [num|] eqn:E; [|exact IH].
  constructor; [|exact IH].
  apply (int_nonneg (num_str_of t)); [|exact E].
  unfold num_str_of, Py.slice. now apply all_chars_substring.
Qed.

(** What the parsing lines return, whatever the stream. *)
Lemma parse_outcome (outputs : string) :
  outcome (parse outputs) =
  if forallb passable (tokens_of_stream outputs)
  then inr (ids_of (tokens_of_stream outputs))
  else inl ValueError.
Proof.
  rewrite parse_unfold. unfold extract_speech_ids.
  destruct (forallb passable (tokens_of_stream outputs)) eqn:E.
  - now rewrite (extract_loop_passable _ _ E).
  - pose proof (extract_loop_stuck _ [] E) as H. unfold outcome in *.
    destruct (extract_loop [] (tokens_of_stream outputs)) as [log [e|ids]];
      cbn in *; [exact H | discriminate H].
Qed.

Lemma parse_unexpected (outputs : string) :
  forallb passable (tokens_of_stream outputs) = true ->
  unexpected (events (parse outputs)) = skipped (tokens_of_stream outputs).
Proof.
  intros E. rewrite parse_unfold. unfold extract_speech_ids.
  rewrite (extract_loop_passable _ _ E). unfold events. cbn [fst unexpected].
  now rewrite unexpected_app, unexpected_map, app_nil_r.
Qed.

(** ** The flow around the parser *)

Section FlowFacts.

Context {sample : Type}.

Lemma writes_app (l1 l2 : list (event sample)) :
  writes (l1 ++ l2) = (writes l1 ++ writes l2)%list.
Proof.
  induction l1 as [|[] l1 IH]; cbn; [reflexivity|..]; now rewrite IH.
Qed.

Lemma decoded_app (l1 l2 : list (event sample)) :
  decoded (l1 ++ l2) = (decoded l1 ++ decoded l2)%list.
Proof.
  induction l1 as [|[] l1 IH]; cbn; [reflexivity|..]; now rewrite IH.
Qed.

Lemma writes_printed (log : list output) :
  writes (map (@Printed sample) log) = [].
Proof.
  induction log as [|o log IH]; [reflexivity | exact IH].
Qed.

Lemma decoded_printed (log : list output) :
  decoded (map (@Printed sample) log) = [].
Proof.
  induction log as [|o log IH]; [reflexivity | exact IH].
Qed.

Variable apply_chat_template : list message -> exn + list Z.
Variable convert_tokens_to_ids : string -> Z.
Variable generate : list Z -> exn + string.
Variable decode_code : list (list (list Z)) -> exn + list (list (list sample)).
Variable sf_write : string -> list sample -> Z -> exn + unit.

Let run := tts sample apply_chat_template convert_tokens_to_ids generate
             decode_code sf_write.

(** The events up to the end of parsing. *)
Let upto_parse (input_ids : list Z) (outputs : string) : list (event sample) :=
  (PrintedInputIds input_ids :: Generate input_ids
   :: map Printed (events (parse outputs)))%list.

(** The flow, stage by stage. *)
Lemma tts_stages (text : string) :
  run text =
  match apply_chat_template (chat text) with
  | inl e => ([], inl e)
  | inr input_ids =>
      match generate input_ids with
      | inl e => ([PrintedInputIds input_ids; Generate input_ids], inl e)
      | inr outputs =>
          match outcome (parse outputs) with
          | inl e => (upto_parse input_ids outputs, inl e)
          | inr speech_ids =>
              if forallb fits_int64 speech_ids then
                match decode_code [[speech_ids]] with
                | inl e =>
                    (upto_parse input_ids outputs
                     ++ [DecodeCode [[speech_ids]]], inl e)%list
                | inr ((data :: _) :: _) =>
                    (upto_parse input_ids outputs
                     ++ [DecodeCode [[speech_ids]];
                         SfWrite "gen.wav" data 16000%Z],
                     sf_write "gen.wav" data 16000%Z)%list
                | inr _ =>
                    (upto_parse input_ids outputs
                     ++ [DecodeCode [[speech_ids]]], inl IndexError)%list
                end
              else (upto_parse input_ids outputs, inl RuntimeError)
          end
      end
  end.
Proof.
  unfold run, upto_parse, tts, outcome, events.
  destruct (apply_chat_template (chat text)) as [e|input_ids]; [reflexivity|].
  cbn -[parse]. destruct (generate input_ids) as [e|outputs]; [reflexivity|].
  cbn -[parse]. destruct (parse outputs) as [log [e|speech_ids]];
    [reflexivity|].
  cbn. unfold torch_tensor, unsqueeze0. rewrite map_id.
  destruct (forallb fits_int64 speech_ids); cbn;
    [|now rewrite app_nil_r].
  destruct (decode_code [[speech_ids]]) as [e|[|[|data rows] rest]]; cbn;
    try reflexivity.
  all: unfold call; cbn; try rewrite app_nil_r; reflexivity.
Qed.

Lemma decoded_upto_parse (input_ids : list Z) (outputs : string) :
  decoded (upto_parse input_ids outputs) = [].
Proof. unfold upto_parse. cbn. apply decoded_printed. Qed.

Lemma writes_upto_parse (input_ids : list Z) (outputs : string) :
  writes (upto_parse input_ids outputs) = [].
Proof. unfold upto_parse. cbn. apply writes_printed. Qed.

(** Whatever list the parser returns is what the codec is called on, as
    long as its elements fit the tensor's 64-bit integers. *)
Lemma tts_decodes_parsed (text : string) (prompt : list Z) (outputs : string)
  (speech_ids : list Z) :
  apply_chat_template (chat text) = inr prompt ->
  generate prompt = inr outputs ->
  outcome (parse outputs) = inr speech_ids ->
  forallb fits_int64 speech_ids = true ->
  decoded (events (run text)) = [[[speech_ids]]].
Proof.
  intros Ha Hg Hp Hf. rewrite tts_stages, Ha, Hg, Hp, Hf.
  destruct (decode_code [[speech_ids]]) as [e|[|[|data rows] rest]];
    unfold events; cbn [fst];
    now rewrite decoded_app, decoded_upto_parse.
Qed.

(** Once the codec has answered with a tensor that has a first channel,
    the run calls [sf.write] once, on that channel, for [gen.wav] at 16000
    Hz, and ends as that call ends. *)
Lemma tts_writes_decoded (text : string) (prompt : list Z) (outputs : string)
  (speech_ids : list Z) (data : list sample) (rows : list (list sample))
  (rest : list (list (list sample))) :
  apply_chat_template (chat text) = inr prompt ->
  generate prompt = inr outputs ->
  outcome (parse outputs) = inr speech_ids ->
  forallb fits_int64 speech_ids = true ->
  decode_code [[speech_ids]] = inr ((data :: rows) :: rest) ->
  writes (events (run text)) = [("gen.wav", data, 16000%Z)]
  /\ outcome (run text) = sf_write "gen.wav" data 16000%Z.
Proof.
  intros Ha Hg Hp Hf Hd. rewrite tts_stages, Ha, Hg, Hp, Hf, Hd.
  unfold events, outcome; cbn [fst snd].
  now rewrite writes_app, writes_upto_parse.
Qed.

(** In any run [sf.write] is called at most once, and then for [gen.wav]
    at 16000 Hz. *)
Lemma tts_writes_at_most_once (text : string) :
  writes (events (run text)) = []
  \/ exists data, writes (events (run text)) = [("gen.wav", data, 16000%Z)].
Proof.
  rewrite tts_stages.
  destruct (apply_chat_template (chat text)) as [e|input_ids]; [now left|].
  destruct (generate input_ids) as [e|outputs]; [now left|].
  destruct (outcome (parse outputs)) as [e|speech_ids].
  { left. apply writes_upto_parse. }
  destruct (forallb fits_int64 speech_ids).
  2:{ left. apply writes_upto_parse. }
  destruct (decode_code [[speech_ids]]) as [e|[|[|data rows] rest]];
    unfold events; cbn [fst]; rewrite writes_app, writes_upto_parse;
    [now left | now left | now left | right; now exists data].
Qed.

End FlowFacts.

(** ** The parser on streams of tokens *)

Lemma speech_token_take (n : Z) (acc : list Z) (rest : list string) :
  (0 <= n)%Z -> decimal_digits n <= Py.int_max_str_digits ->
  extract_loop acc (speech_token n :: rest) = extract_loop (acc ++ [n]) rest.
Proof.
  intros Hn Hcap. apply extract_loop_take; [apply speech_shaped_wrap|].
  unfold num_str_of, speech_token. rewrite slice_wrap. now apply int_str.
Qed.

(** ** Further facts on [replace] and [split]: separators *)

Lemma prefix_sep (c : ascii) (old x y : string) :
  free_of c old = true -> prefix old (x ++ String c y) = prefix old x.
Proof.
  revert x; induction old as [|h t IH]; intros x Hfree.
  - now destruct x.
  - rewrite free_of_cons in Hfree. apply andb_prop in Hfree as [Hh Ht].
    destruct x as [|d x]; cbn [append prefix].
    + destruct (ascii_dec h c) as [->|]; [|reflexivity].
      now rewrite Ascii.eqb_refl in Hh.
    + destruct (ascii_dec h d); [now apply IH | reflexivity].
Qed.

Lemma prefix_length (old x : string) :
  prefix old x = true -> String.length old <= String.length x.
Proof.
  intros H. apply prefix_split in H as [r ->]. rewrite length_append. lia.
Qed.

Lemma replace_scan_sep (h : ascii) (t new : string) (c : ascii)
  (x : string) (k : nat) (y : string) :
  free_of c (String h t) = true ->
  k <= String.length x ->
  Py.replace_scan (String h t) new k (x ++ String c y) =
  Py.replace_scan (String h t) new k x
  ++ String c (Py.replace_scan (String h t) new 0 y).
Proof.
  intros Hfree. revert k; induction x as [|d x IH]; intros k Hk.
  - cbn [String.length] in Hk. replace k with 0 by lia.
    cbn [append]. rewrite replace_scan_other; [reflexivity|].
    intros ->. rewrite free_of_cons, Ascii.eqb_refl in Hfree. discriminate.
  - cbn [String.length] in Hk. destruct k as [|k].
    + change (String d x ++ String c y) with (String d (x ++ String c y)).
      rewrite !replace_scan_cons.
      change (String d (x ++ String c y)) with (String d x ++ String c y).
      rewrite (prefix_sep _ _ _ _ Hfree).
      destruct (prefix (String h t) (String d x)) eqn:E.
      * apply prefix_length in E. cbn [String.length] in E.
        rewrite IH by lia. now rewrite append_assoc.
      * rewrite IH by lia. reflexivity.
    + cbn [append Py.replace_scan]. apply IH. lia.
Qed.

Lemma split_sep_app (x y : string) (sep : ascii) :
  Py.split (x ++ String sep y) sep = (Py.split x sep ++ Py.split y sep)%list.
Proof.
  induction x as [|c x IH].
  - cbn [append]. rewrite split_cons, Ascii.eqb_refl. reflexivity.
  - change (String c x ++ String sep y) with (String c (x ++ String sep y)).
    rewrite !split_cons, IH.
    destruct (Ascii.eqb c sep); [reflexivity|].
    destruct (Py.split x sep) as [|p ps] eqn:E; [|reflexivity].
    now apply split_nonempty in E.
Qed.

Lemma strip_start_leading (s : string) :
  strip_start (SPEECH_GENERATION_START ++ s) = strip_start s.
Proof.
  unfold strip_start, Py.replace, SPEECH_GENERATION_START.
  now rewrite replace_scan_match.
Qed.

Lemma parse_strip_start (x y : string) :
  strip_start x = strip_start y -> parse x = parse y.
Proof.
  intros E. unfold parse. now rewrite E.
Qed.

Lemma join_app (l1 l2 : list string) : join (l1 ++ l2) = join l1 ++ join l2.
Proof.
  induction l1 as [|x l1 IH]; [reflexivity|].
  cbn [app]. now rewrite !join_cons, IH, append_assoc.
Qed.

Lemma append_cancel_r (x y s : string) : x ++ s = y ++ s -> x = y.
Proof.
  revert y; induction x as [|c x IH]; intros [|d y] H.
  - reflexivity.
  - apply (f_equal String.length) in H.
    cbn [append String.length] in H. rewrite length_append in H. lia.
  - apply (f_equal String.length) in H.
    cbn [append String.length] in H. rewrite length_append in H. lia.
  - cbn [append] in H. injection H as -> H. now rewrite (IH _ H).
Qed.

(** ** Further facts on the loop *)

Lemma extract_outcome (tokens : list string) :
  outcome (extract_speech_ids tokens) =
  if forallb passable tokens then inr (ids_of tokens) else inl ValueError.
Proof.
  unfold extract_speech_ids.
  destruct (forallb passable tokens) eqn:E.
  - now rewrite (extract_loop_passable _ _ E).
  - now apply extract_loop_stuck.
Qed.

Lemma extract_loop_app (pre rest : list string) (acc : list Z) :
  forallb passable pre = true ->
  extract_loop acc (pre ++ rest) =
  ((map OutUnexpected (skipped pre)
    ++ events (extract_loop (acc ++ ids_of pre) rest))%list,
   outcome (extract_loop (acc ++ ids_of pre) rest)).
Proof.
  revert acc; induction pre as [|t pre IH]; intros acc H.
  - cbn. rewrite app_nil_r. now destruct (extract_loop acc rest).
  - cbn [forallb] in H. apply andb_prop in H as [Ht H].
    unfold passable in Ht. unfold skipped in *. cbn [app filter ids_of].
    destruct (speech_shaped t) eqn:Es.
    + destruct (Py.int (num_str_of t)) as [num|] eqn:Ei; [|discriminate].
      rewrite (extract_loop_take _ _ _ num Es Ei), (IH _ H).
      cbn [negb]. now rewrite <- app_assoc.
    + rewrite (extract_loop_skip _ _ _ Es), (IH _ H). reflexivity.
Qed.

Lemma ids_of_app (xs ys : list string) :
  ids_of (xs ++ ys) = (ids_of xs ++ ids_of ys)%list.
Proof.
  induction xs as [|t xs IH]; [reflexivity|]. cbn [app ids_of].
  destruct (speech_shaped t); [|exact IH].
  destruct (Py.int (num_str_of t)); [|exact IH].
  cbn [app]. now rewrite IH.
Qed.

Lemma accounted (tokens : list string) :
  forallb passable tokens = true ->
  List.length (ids_of tokens) + List.length (skipped tokens)
  = List.length tokens.
Proof.
  induction tokens as [|t tokens IH]; intros H; [reflexivity|].
  cbn [forallb] in H. apply andb_prop in H as [Ht H].
  unfold passable in Ht. unfold skipped in *. cbn [filter ids_of].
  destruct (speech_shaped t); cbn [negb].
  - destruct (Py.int (num_str_of t)); [|discriminate].
    cbn [List.length]. rewrite <- (IH H). lia.
  - cbn [List.length]. rewrite <- (IH H). lia.
Qed.

(** ** Further facts on speech tokens: any sign *)

Lemma str_neg (p : positive) :
  Py.str (Zneg p) = String "-" (NilEmpty.string_of_uint (Pos.to_uint p)).
Proof.
  destruct (str_pos p) as [_ Hne].
  unfold Py.str, NilZero.string_of_int, NilZero.string_of_uint.
  cbn [Z.to_int]. now destruct (Pos.to_uint p).
Qed.

(** [int] reads back what [str] prints, whatever the sign, within the
    cap on digits. *)
Lemma int_str_signed (n : Z) :
  decimal_digits n <= Py.int_max_str_digits -> Py.int (Py.str n) = Some n.
Proof.
  intros Hcap.
  destruct n as [|p|p]; [reflexivity | now apply int_str |].
  unfold decimal_digits in Hcap. cbn [Z.abs] in Hcap.
  rewrite str_neg. destruct (str_pos p) as [E Hne]. rewrite E in Hcap.
  unfold Py.int. cbn [Py.lstrip].
  change (Py.isspace "-") with false. cbv iota.
  change (Ascii.eqb "-" "+") with false.
  change (Ascii.eqb "-" "-") with true. cbv iota.
  rewrite (unsigned_literal_uint _ Hne Hcap), Unsigned.of_to. reflexivity.
Qed.

Lemma str_free (c : ascii) (n : Z) :
  is_digit c = false -> Ascii.eqb "-" c = false ->
  free_of c (Py.str n) = true.
Proof.
  intros Hc Hm.
  assert (F : forall d, free_of c (NilEmpty.string_of_uint d) = true).
  { intros d. apply (all_chars_weaken is_digit); [|apply uint_all_digits].
    intros x. now apply digit_not. }
  destruct n as [|p|p].
  - apply (all_chars_weaken is_digit); [|reflexivity].
    intros x. now apply digit_not.
  - destruct (str_pos p) as [-> _]. apply F.
  - rewrite str_neg, free_of_cons, Hm. apply F.
Qed.

Lemma speech_token_body (n : Z) : speech_token n = bracketed (speech_body n).
Proof. apply speech_token_bracketed. Qed.

Lemma speech_body_good (n : Z) :
  plain (speech_body n) = true /\ speech_body n <> START_body.
Proof.
  split; [|discriminate].
  unfold plain, speech_body.
  rewrite !free_of_append, !str_free by reflexivity. reflexivity.
Qed.

Lemma speech_token_passes (n : Z) (acc : list Z) (rest : list string) :
  decimal_digits n <= Py.int_max_str_digits ->
  extract_loop acc (speech_token n :: rest) = extract_loop (acc ++ [n]) rest.
Proof.
  intros Hcap. apply extract_loop_take; [apply speech_shaped_wrap|].
  unfold num_str_of, speech_token. rewrite slice_wrap.
  now apply int_str_signed.
Qed.

Lemma speech_tokens_then (L : list Z) (rest : list string) (acc : list Z) :
  Forall (fun n => decimal_digits n <= Py.int_max_str_digits) L ->
  extract_loop acc (map speech_token L ++ rest) =
  extract_loop (acc ++ L) rest.
Proof.
  revert acc; induction L as [|n L IH]; intros acc H.
  - cbn. now rewrite app_nil_r.
  - inversion H as [|? ? Hn HL]; subst. cbn [map app].
    rewrite (speech_token_passes _ _ _ Hn), (IH _ HL).
    now rewrite <- app_assoc.
Qed.

(** Lines 55 to 66 on a non-empty stream of bracketed tokens, none of them
    the start sentinel. *)
Lemma tokens_of_bracketed (b : string) (bs : list string) :
  Forall (fun b => plain b = true /\ b <> START_body) (b :: bs) ->
  tokens_of_stream (join (map bracketed (b :: bs))) = map bracketed (b :: bs).
Proof.
  intros H. unfold tokens_of_stream.
  rewrite (strip_start_bracketed _ H).
  apply speech_tokens_of_bracketed.
  eapply Forall_impl; [|exact H]. now intros x [Hx _].
Qed.

Lemma speech_bodies_good (L : list Z) :
  Forall (fun b => plain b = true /\ b <> START_body) (map speech_body L).
Proof.
  apply Forall_map, Forall_forall. intros n _. apply speech_body_good.
Qed.

Lemma speech_tokens_bodies (L : list Z) :
  map speech_token L = map bracketed (map speech_body L).
Proof.
  rewrite map_map. apply map_ext. exact speech_token_body.
Qed.



Lemma passable_unshaped (t : string) :
  speech_shaped t = false -> passable t = true.
Proof. unfold passable. now intros ->. Qed.

(** ** Further properties of the parsing code *)


(** X2.  When the loop raises, the diagnostics already printed are those
    of the skipped tokens before the first offending token: nothing is
    reported for the tokens after it, and no list is returned. *)
Theorem extract_stops_at_first_bad (pre : list string) (bad : string)
  (post : list string) :
  forallb passable pre = true ->
  speech_shaped bad = true ->
  Py.int (num_str_of bad) = None ->
  extract_speech_ids (pre ++ bad :: post) =
  (map OutUnexpected (skipped pre), inl ValueError).
Proof.
  intros Hpre Hs Hi. unfold extract_speech_ids.
  rewrite (extract_loop_app _ _ _ Hpre), (extract_loop_raise _ _ _ Hs Hi).
  unfold events, outcome. cbn [fst snd]. now rewrite app_nil_r.
Qed.

Lemma extract_stops_at_first_bad_witness :
  forallb passable ["oops"; "<|s_4|>"] = true
  /\ speech_shaped "<|s_x|>" = true
  /\ Py.int (num_str_of "<|s_x|>") = None
  /\ extract_speech_ids (["oops"; "<|s_4|>"] ++ "<|s_x|>" :: ["later"]) =
     ([OutUnexpected "oops"], inl ValueError).
Proof.
  assert (H1 : forallb passable ["oops"; "<|s_4|>"] = true) by reflexivity.
  assert (H2 : speech_shaped "<|s_x|>" = true) by reflexivity.
  assert (H3 : Py.int (num_str_of "<|s_x|>") = None) by reflexivity.
  repeat (split; [assumption|]).
  exact (extract_stops_at_first_bad ["oops"; "<|s_4|>"] "<|s_x|>" ["later"]
           H1 H2 H3).
Defined.

(** X3.  When the parsing lines return, every token is accounted for
    exactly once: the ids returned and the tokens reported as unexpected
    together number as many as the tokens of line 66. *)
Theorem parse_accounts_for_every_token (outputs : string) (speech_ids : list Z) :
  outcome (parse outputs) = inr speech_ids ->
  List.length speech_ids + List.length (unexpected (events (parse outputs)))
  = List.length (tokens_of_stream outputs).
Proof.
  intros H. rewrite parse_outcome in H.
  destruct (forallb passable (tokens_of_stream outputs)) eqn:E;
    [|discriminate].
  injection H as <-. rewrite (parse_unexpected _ E). now apply accounted.
Qed.

Lemma parse_accounts_for_every_token_witness :
  outcome (parse "<|s_3|><junk><|s_4|><|SPEECH_GENERATION_END|>")
  = inr [3%Z; 4%Z]
  /\ List.length [3%Z; 4%Z]
     + List.length
         (unexpected
            (events (parse "<|s_3|><junk><|s_4|><|SPEECH_GENERATION_END|>")))
     = List.length
         (tokens_of_stream "<|s_3|><junk><|s_4|><|SPEECH_GENERATION_END|>").
Proof.
  assert (H : outcome (parse "<|s_3|><junk><|s_4|><|SPEECH_GENERATION_END|>")
              = inr [3%Z; 4%Z]) by (vm_compute; reflexivity).
  split; [exact H|].
  exact (parse_accounts_for_every_token _ _ H).
Defined.

(** X4.  A comma already present in the generated stream is a token
    boundary like the ones line 63 inserts: the tokens of [x,y] are the
    tokens of [x] followed by the tokens of [y]. *)
Theorem tokens_of_comma (x y : string) :
  tokens_of_stream (x ++ "," ++ y) =
  (tokens_of_stream x ++ tokens_of_stream y)%list.
Proof.
  unfold tokens_of_stream, speech_tokens_of, strip_start, Py.replace,
    SPEECH_GENERATION_START.
  change (x ++ "," ++ y) with (x ++ String "," y).
  rewrite replace_scan_sep by (reflexivity || lia).
  rewrite replace_scan_sep by (reflexivity || lia).
  apply split_sep_app.
Qed.

(** X5.  Parsing composes over a comma: when [x] parses to [a] and [y]
    parses to [b], the stream [x,y] parses to [a] followed by [b]. *)
Theorem parse_of_comma (x y : string) (a b : list Z) :
  outcome (parse x) = inr a ->
  outcome (parse y) = inr b ->
  outcome (parse (x ++ "," ++ y)) = inr (a ++ b)%list.
Proof.
  rewrite !parse_outcome, tokens_of_comma, forallb_app, ids_of_app.
  destruct (forallb passable (tokens_of_stream x)); [|discriminate].
  destruct (forallb passable (tokens_of_stream y)); [|discriminate].
  now intros [= <-] [= <-].
Qed.

Lemma parse_of_comma_witness :
  outcome (parse "<|s_1|><|s_2|>") = inr [1%Z; 2%Z]
  /\ outcome (parse "<|s_3|>") = inr [3%Z]
  /\ outcome (parse ("<|s_1|><|s_2|>" ++ "," ++ "<|s_3|>"))
     = inr ([1%Z; 2%Z] ++ [3%Z])%list.
Proof.
  assert (Hx : outcome (parse "<|s_1|><|s_2|>") = inr [1%Z; 2%Z])
    by (vm_compute; reflexivity).
  assert (Hy : outcome (parse "<|s_3|>") = inr [3%Z])
    by (vm_compute; reflexivity).
  split; [exact Hx|]. split; [exact Hy|].
  exact (parse_of_comma _ _ _ _ Hx Hy).
Defined.

(** X6.  A terminated stream: for every list [L] of integers, of either
    sign, each of at most [int_max_str_digits] decimal digits, the start
    sentinel, then [<|s_n|>] for each [n] of [L], then the end sentinel,
    parses to exactly [L], and the end sentinel is the one token reported
    as unexpected. *)
Theorem parse_terminated_stream (L : list Z) :
  Forall (fun n => decimal_digits n <= Py.int_max_str_digits) L ->
  outcome (parse (stream_of L ++ SPEECH_GENERATION_END)) = inr L
  /\ unexpected (events (parse (stream_of L ++ SPEECH_GENERATION_END)))
     = [SPEECH_GENERATION_END].
Proof.
  intros Hcap.
  assert (E : stream_of L ++ SPEECH_GENERATION_END =
              SPEECH_GENERATION_START
              ++ join (map bracketed (map speech_body L ++ [END_body]))).
  { unfold stream_of, SPEECH_GENERATION_START.
    rewrite append_assoc, map_app, join_app, <- speech_tokens_bodies.
    cbn [map join fold_right]. now rewrite append_empty_r. }
  rewrite E, (parse_strip_start _ _ (strip_start_leading _)).
  assert (G : Forall (fun b => plain b = true /\ b <> START_body)
                (map speech_body L ++ [END_body])).
  { apply Forall_app. split; [apply speech_bodies_good|].
    repeat constructor. discriminate. }
  assert (T : tokens_of_stream
                (join (map bracketed (map speech_body L ++ [END_body])))
              = (map speech_token L ++ [SPEECH_GENERATION_END])%list).
  { destruct (map speech_body L ++ [END_body])%list as [|b bs] eqn:Eb.
    - now destruct (map speech_body L).
    - rewrite (tokens_of_bracketed b bs G), <- Eb, map_app.
      now rewrite <- speech_tokens_bodies. }
  rewrite parse_unfold, T. unfold extract_speech_ids.
  rewrite (speech_tokens_then _ _ _ Hcap). split; reflexivity.
Qed.

Lemma parse_terminated_stream_witness :
  Forall (fun n => decimal_digits n <= Py.int_max_str_digits)
    [25105%Z; (-7)%Z; 0%Z]
  /\ outcome (parse (stream_of [25105%Z; (-7)%Z; 0%Z] ++ SPEECH_GENERATION_END))
     = inr [25105%Z; (-7)%Z; 0%Z]
  /\ unexpected
       (events (parse (stream_of [25105%Z; (-7)%Z; 0%Z]
                       ++ SPEECH_GENERATION_END)))
     = [SPEECH_GENERATION_END].
Proof.
  assert (H : Forall (fun n => decimal_digits n <= Py.int_max_str_digits)
                [25105%Z; (-7)%Z; 0%Z])
    by (repeat constructor; apply Nat.leb_le; vm_compute; reflexivity).
  split; [exact H | exact (parse_terminated_stream _ H)].
Defined.

(** X7.  A leading start sentinel changes nothing: the parsing lines
    print and return the same on [<|SPEECH_GENERATION_START|>] followed by
    [s] as on [s] alone. *)
Theorem parse_leading_sentinel (s : string) :
  parse (SPEECH_GENERATION_START ++ s) = parse s.
Proof.
  apply parse_strip_start, strip_start_leading.
Qed.

(** X8.  A token that fails the test of line 21 never changes what
    [extract_speech_ids] returns or whether it raises: with or without it
    in the list, the outcome is the same. *)
Theorem extract_ignores_unshaped (xs ys : list string) (u : string) :
  speech_shaped u = false ->
  outcome (extract_speech_ids (xs ++ u :: ys)) =
  outcome (extract_speech_ids (xs ++ ys)).
Proof.
  intros Hu. rewrite !extract_outcome, !forallb_app, !ids_of_app.
  cbn [forallb ids_of]. now rewrite (passable_unshaped _ Hu), Hu.
Qed.

Lemma extract_ignores_unshaped_witness :
  speech_shaped "<|unknown|>" = false
  /\ outcome (extract_speech_ids (["<|s_1|>"] ++ "<|unknown|>" :: ["<|s_2|>"]))
     = outcome (extract_speech_ids (["<|s_1|>"] ++ ["<|s_2|>"])).
Proof.
  assert (H : speech_shaped "<|unknown|>" = false) by reflexivity.
  split; [exact H|].
  exact (extract_ignores_unshaped ["<|s_1|>"] ["<|s_2|>"] "<|unknown|>" H).
Defined.

(** X9.  Distinct texts give distinct prompts: the prompt determines the
    text it was built from. *)
Theorem chat_injective (t1 t2 : string) : chat t1 = chat t2 <-> t1 = t2.
Proof.
  split; [|now intros ->].
  unfold chat, formatted_text. intros H.
  injection H as H. now apply append_cancel_r in H.
Qed.

(** ** Further properties of the flow *)

(** X10.  When the parsing lines raise, the run stops with that
    exception: the codec is not called and no file is written. *)
Theorem tts_parse_error_aborts (sample : Type)
  (apply_chat_template : list message -> exn + list Z)
  (convert_tokens_to_ids : string -> Z)
  (generate : list Z -> exn + string)
  (decode_code : list (list (list Z)) -> exn + list (list (list sample)))
  (sf_write : string -> list sample -> Z -> exn + unit)
  (text : string) (prompt : list Z) (outputs : string) (e : exn) :
  apply_chat_template (chat text) = inr prompt ->
  generate prompt = inr outputs ->
  outcome (parse outputs) = inl e ->
  let run := tts sample apply_chat_template convert_tokens_to_ids generate
               decode_code sf_write text in
  outcome run = inl e /\ decoded (events run) = [] /\ writes (events run) = [].
Proof.
  intros Ha Hg Hp run. unfold run.
  rewrite (tts_stages apply_chat_template convert_tokens_to_ids generate
             decode_code sf_write text), Ha, Hg, Hp.
  unfold outcome, events. cbn [fst snd].
  repeat split.
  - apply (decoded_printed (sample := sample)).
  - apply (writes_printed (sample := sample)).
Qed.

Lemma tts_parse_error_aborts_witness :
  stub_template (chat input_text) = inr [1%Z]
  /\ stub_generate "<|s_abc|>" [1%Z] = inr "<|s_abc|>"
  /\ outcome (parse "<|s_abc|>") = inl ValueError
  /\ outcome (stub_main "<|s_abc|>") = inl ValueError
  /\ decoded (events (stub_main "<|s_abc|>")) = []
  /\ writes (events (stub_main "<|s_abc|>")) = [].
Proof.
  assert (Hp : outcome (parse "<|s_abc|>") = inl ValueError)
    by (vm_compute; reflexivity).
  split; [reflexivity|]. split; [reflexivity|]. split; [exact Hp|].
  exact (tts_parse_error_aborts Z stub_template stub_ids
           (stub_generate "<|s_abc|>") stub_decode stub_write input_text [1%Z]
           "<|s_abc|>" ValueError eq_refl eq_refl Hp).
Defined.

(** X11.  The codec is called at most once in a run, and only on what the
    parsing lines returned for the generated stream, as a 1 x 1 x n
    tensor. *)
Theorem tts_codec_sees_parsed_ids (sample : Type)
  (apply_chat_template : list message -> exn + list Z)
  (convert_tokens_to_ids : string -> Z)
  (generate : list Z -> exn + string)
  (decode_code : list (list (list Z)) -> exn + list (list (list sample)))
  (sf_write : string -> list sample -> Z -> exn + unit)
  (text : string) :
  let run := tts sample apply_chat_template convert_tokens_to_ids generate
               decode_code sf_write text in
  decoded (events run) = []
  \/ exists prompt outputs speech_ids,
       apply_chat_template (chat text) = inr prompt
       /\ generate prompt = inr outputs
       /\ outcome (parse outputs) = inr speech_ids
       /\ decoded (events run) = [[[speech_ids]]].
Proof.
  intros run. unfold run.
  rewrite (tts_stages apply_chat_template convert_tokens_to_ids generate
             decode_code sf_write text).
  destruct (apply_chat_template (chat text)) as [e|prompt] eqn:Ha;
    [now left|].
  destruct (generate prompt) as [e|outputs] eqn:Hg; [now left|].
  destruct (outcome (parse outputs)) as [e|speech_ids] eqn:Hp.
  { left. unfold events. cbn [fst]. apply (decoded_printed (sample := sample)). }
  destruct (forallb fits_int64 speech_ids).
  2:{ left. unfold events. cbn [fst].
      apply (decoded_printed (sample := sample)). }
  right. exists prompt, outputs, speech_ids. repeat split; try assumption.
  destruct (decode_code [[speech_ids]]) as [e|[|[|data rows] rest]];
    unfold events; cbn [fst]; rewrite decoded_app;
    cbn [decoded]; now rewrite (decoded_printed (sample := sample)).
Qed.

(** ** Text glued to speech tokens *)

Lemma digit_char (c : ascii) :
  is_digit c = true ->
  Py.isspace c = false /\ Ascii.eqb c "+" = false /\ Ascii.eqb c "-" = false.
Proof.
  destruct c as [[] [] [] [] [] [] [] []]; intros H; vm_compute in H;
    try discriminate H; repeat split.
Qed.

Lemma int_head_digit (c : ascii) (s : string) :
  is_digit c = true -> Py.int (String c s) = Py.unsigned_literal (String c s).
Proof.
  intros H. destruct (digit_char c H) as (Hs & Hp & Hm).
  unfold Py.int. cbn [Py.lstrip]. now rewrite Hs, Hp, Hm.
Qed.

Lemma digits_uint_then (d : Decimal.uint) (acc : Z) (r : string) :
  exists v,
    Py.digits acc false (NilEmpty.string_of_uint d ++ String "|" r) =
    Some (v, String "|" r).
Proof.
  revert acc; induction d; intros acc;
    cbn [NilEmpty.string_of_uint append Py.digits];
    [now exists acc|..]; eval_digit; cbv iota; apply IHd.
Qed.

Lemma unsigned_literal_uint_then (d : Decimal.uint) (r : string) :
  Py.unsigned_literal (NilEmpty.string_of_uint d ++ String "|" r) = None.
Proof.
  destruct (digits_uint_then d 0 r) as [v E].
  unfold Py.unsigned_literal.
  destruct (NilEmpty.string_of_uint d ++ String "|" r) as [|c s];
    [reflexivity|].
  destruct (Py.digit c); [|reflexivity]. rewrite E.
  now destruct (_ <? _)%nat.
Qed.

(** A literal followed by [|] is no integer for [int]. *)
Lemma int_str_then (n : Z) (r : string) :
  Py.int (Py.str n ++ String "|" r) = None.
Proof.
  destruct n as [|p|p]; [reflexivity | |].
  - destruct (str_pos p) as [-> Hne].
    pose proof (uint_all_digits (Pos.to_uint p)) as Hd.
    pose proof (unsigned_literal_uint_then (Pos.to_uint p) r) as E.
    destruct (NilEmpty.string_of_uint (Pos.to_uint p)) as [|c s];
      [exact E|].
    cbn [all_chars] in Hd. apply andb_prop in Hd as [Hc _].
    cbn [append] in *. now rewrite (int_head_digit _ _ Hc).
  - rewrite str_neg. unfold Py.int. cbn [append Py.lstrip].
    change (Py.isspace "-") with false. cbv iota.
    change (Ascii.eqb "-" "+") with false.
    change (Ascii.eqb "-" "-") with true. cbv iota.
    now rewrite unsigned_literal_uint_then.
Qed.

Lemma no_start_at_speech (n : Z) (r : string) :
  prefix SPEECH_GENERATION_START (String "<" (speech_body n ++ r)) = false.
Proof. reflexivity. Qed.

Lemma no_boundary_before (c : ascii) (r : string) :
  Ascii.eqb c "<" = false -> prefix "><" (String ">" (String c r)) = false.
Proof.
  intros Hc. destruct (prefix _ _) eqn:E; [|reflexivity].
  apply prefix_cons_inv in E as [_ E]. apply prefix_cons_inv in E as [<- _].
  discriminate Hc.
Qed.

Lemma strip_scan_speech (n : Z) (r : string) :
  Py.replace_scan SPEECH_GENERATION_START "" 0
    (String "<" (speech_body n ++ r)) =
  String "<" (Py.replace_scan SPEECH_GENERATION_START "" 0 (speech_body n ++ r)).
Proof.
  pose proof (no_start_at_speech n r) as H.
  unfold SPEECH_GENERATION_START in *.
  now rewrite replace_scan_cons, H.
Qed.

Lemma strip_scan_plain (x y : string) :
  free_of "<" x = true ->
  Py.replace_scan SPEECH_GENERATION_START "" 0 (x ++ y) =
  x ++ Py.replace_scan SPEECH_GENERATION_START "" 0 y.
Proof. apply replace_scan_nohead. Qed.

Lemma comma_scan_plain (x y : string) :
  free_of ">" x = true ->
  Py.replace_scan "><" ">,<" 0 (x ++ y) = x ++ Py.replace_scan "><" ">,<" 0 y.
Proof. apply replace_scan_nohead. Qed.

Lemma comma_scan_other (c : ascii) (r : string) :
  Ascii.eqb c "<" = false ->
  Py.replace_scan "><" ">,<" 0 (String ">" (String c r)) =
  String ">" (Py.replace_scan "><" ">,<" 0 (String c r)).
Proof.
  intros Hc. now rewrite replace_scan_cons, (no_boundary_before _ _ Hc).
Qed.

(** Lines 55 to 66 leave two speech tokens with plain text glued between
    them as one single token. *)
Lemma tokens_of_glued (a b : Z) (w : string) :
  w <> "" -> plain w = true ->
  tokens_of_stream (speech_token a ++ w ++ speech_token b) =
  [speech_token a ++ w ++ speech_token b].
Proof.
  intros Hw Hp. apply plain_parts in Hp as (Wlt & Wgt & Wc).
  destruct (speech_body_good a) as [Pa _]. apply plain_parts in Pa as (Alt & Agt & Ac).
  destruct (speech_body_good b) as [Pb _]. apply plain_parts in Pb as (Blt & Bgt & Bc).
  assert (E : speech_token a ++ w ++ speech_token b =
              String "<" (speech_body a ++ String ">" (w ++
                String "<" (speech_body b ++ ">")))).
  { rewrite !speech_token_body. unfold bracketed. cbn [append].
    now rewrite !append_assoc. }
  rewrite E.
  assert (S1 : strip_start
                 (String "<" (speech_body a ++ String ">" (w ++
                    String "<" (speech_body b ++ ">"))))
               = String "<" (speech_body a ++ String ">" (w ++
                    String "<" (speech_body b ++ ">")))).
  { unfold strip_start, Py.replace.
    change (Py.replace_scan "<|SPEECH_GENERATION_START|>")
      with (Py.replace_scan SPEECH_GENERATION_START).
    rewrite strip_scan_speech. f_equal.
    change (speech_body a ++ String ">" (w ++ String "<" (speech_body b ++ ">")))
      with (speech_body a ++ ">" ++ (w ++ String "<" (speech_body b ++ ">"))).
    rewrite <- !append_assoc.
    rewrite strip_scan_plain
      by (rewrite !free_of_append, Alt, Wlt; reflexivity).
    f_equal. rewrite strip_scan_speech. f_equal.
    rewrite <- (append_empty_r (speech_body b ++ ">")) at 1.
    rewrite strip_scan_plain by (rewrite ?free_of_append, Blt; reflexivity).
    now rewrite append_empty_r. }
  unfold tokens_of_stream. rewrite S1. unfold speech_tokens_of.
  assert (S2 : Py.replace
                 (String "<" (speech_body a ++ String ">" (w ++
                    String "<" (speech_body b ++ ">")))) "><" ">,<"
               = String "<" (speech_body a ++ String ">" (w ++
                    String "<" (speech_body b ++ ">")))).
  { unfold Py.replace.
    change (String "<" (speech_body a ++ ?r)) with (String "<" (speech_body a) ++ r).
    rewrite comma_scan_plain by (rewrite free_of_cons, Agt; reflexivity).
    f_equal.
    destruct w as [|c w]; [now elim Hw|].
    rewrite free_of_cons in Wlt, Wgt.
    apply andb_prop in Wlt as [Wlt1 Wlt2]. apply andb_prop in Wgt as [Wgt1 Wgt2].
    apply negb_true_iff in Wlt1.
    cbn [append]. rewrite (comma_scan_other _ _ Wlt1). f_equal.
    change (String c (w ++ String "<" (speech_body b ++ ">")))
      with (String c w ++ String "<" (speech_body b) ++ ">").
    rewrite <- append_assoc.
    rewrite comma_scan_plain; [reflexivity|].
    rewrite free_of_append, !free_of_cons, Wgt1, Wgt2, Bgt. reflexivity. }
  rewrite S2. apply split_free.
  repeat (rewrite free_of_cons || rewrite free_of_append).
  rewrite Ac, Wc, Bc. reflexivity.
Qed.

(** X12.  Plain text glued between two speech tokens, with no brackets of
    its own (a blank or a line break, say), is not reported as unexpected:
    the three pieces stay one token, which passes the test of line 21, and
    [int] raises [ValueError] on what it encloses. *)
Theorem parse_raises_on_glued_text (a b : Z) (w : string) :
  w <> "" -> plain w = true ->
  outcome (parse (speech_token a ++ w ++ speech_token b)) = inl ValueError.
Proof.
  intros Hw Hp. rewrite parse_outcome, (tokens_of_glued a b w Hw Hp).
  assert (E : speech_token a ++ w ++ speech_token b =
              "<|s_" ++ (Py.str a ++ String "|" (">" ++ w ++ "<|s_" ++ Py.str b))
              ++ "|>").
  { unfold speech_token. cbn [append]. do 4 f_equal.
    rewrite !append_assoc. cbn [append]. do 3 f_equal.
    now rewrite !append_assoc. }
  cbn [forallb]. unfold passable, num_str_of. rewrite E.
  now rewrite speech_shaped_wrap, slice_wrap, int_str_then.
Qed.

Lemma parse_raises_on_glued_text_witness :
  " " <> "" /\ plain " " = true
  /\ outcome (parse ("<|s_1|>" ++ " " ++ "<|s_2|>")) = inl ValueError.
Proof.
  assert (Hw : " " <> "") by discriminate.
  assert (Hp : plain " " = true) by reflexivity.
  split; [exact Hw|]. split; [exact Hp|].
  exact (parse_raises_on_glued_text 1 2 " " Hw Hp).
Defined.

(** ** Streams without an opening bracket *)

Lemma strip_start_no_lt (s : string) :
  free_of "<" s = true -> strip_start s = s.
Proof.
  intros H. unfold strip_start, Py.replace, SPEECH_GENERATION_START.
  pose proof (replace_scan_nohead "<" "|SPEECH_GENERATION_START|>" "" s "" H)
    as E.
  rewrite !append_empty_r in E. exact E.
Qed.

Lemma insert_commas_no_lt (s : string) :
  free_of "<" s = true -> Py.replace s "><" ">,<" = s.
Proof.
  unfold Py.replace. induction s as [|c s IH]; intros H; [reflexivity|].
  rewrite free_of_cons in H. apply andb_prop in H as [_ H].
  rewrite replace_scan_cons.
  destruct (prefix "><" (String c s)) eqn:E.
  - exfalso. apply prefix_cons_inv in E as [_ E].
    destruct s as [|d s]; [discriminate E|].
    apply prefix_cons_inv in E as [<- _]. discriminate H.
  - now rewrite (IH H).
Qed.

Lemma unshaped_no_lt (t : string) :
  free_of "<" t = true -> speech_shaped t = false.
Proof.
  intros H. unfold speech_shaped, Py.startswith.
  destruct t as [|c t]; [reflexivity|].
  destruct (prefix "<|s_" (String c t)) eqn:E; [|reflexivity].
  apply prefix_cons_inv in E as [<- _]. discriminate H.
Qed.

Lemma all_unshaped (tokens : list string) :
  Forall (fun t => speech_shaped t = false) tokens ->
  forallb passable tokens = true /\ ids_of tokens = []
  /\ skipped tokens = tokens.
Proof.
  unfold skipped.
  induction 1 as [|t tokens Ht _ (IH1 & IH2 & IH3)]; [now repeat split|].
  cbn [forallb ids_of filter].
  now rewrite (passable_unshaped _ Ht), Ht, IH1, IH2, IH3.
Qed.

(** X13.  A stream with no opening bracket at all yields no id and does
    not raise: the parsing lines return the empty list and report every
    comma-separated piece of the stream as unexpected. *)
Theorem parse_without_bracket (outputs : string) :
  free_of "<" outputs = true ->
  outcome (parse outputs) = inr []
  /\ unexpected (events (parse outputs)) = Py.split outputs ",".
Proof.
  intros H.
  assert (T : tokens_of_stream outputs = Py.split outputs ",").
  { unfold tokens_of_stream, speech_tokens_of.
    now rewrite (strip_start_no_lt _ H), (insert_commas_no_lt _ H). }
  assert (U : Forall (fun t => speech_shaped t = false)
                (tokens_of_stream outputs)).
  { rewrite T. eapply Forall_impl; [|apply split_keeps; exact H].
    intros t Ht. now apply unshaped_no_lt. }
  apply all_unshaped in U as (U1 & U2 & U3).
  rewrite parse_outcome, (parse_unexpected _ U1), U1, U2, U3.
  now rewrite T.
Qed.

Lemma parse_without_bracket_witness :
  free_of "<" "no tokens here, sorry" = true
  /\ outcome (parse "no tokens here, sorry") = inr []
  /\ unexpected (events (parse "no tokens here, sorry"))
     = Py.split "no tokens here, sorry" ",".
Proof.
  assert (H : free_of "<" "no tokens here, sorry" = true) by reflexivity.
  split; [exact H|].
  exact (parse_without_bracket "no tokens here, sorry" H).
Defined.

(** ** What lines 63 and 66 guarantee of every token *)

Lemma prefix_gt_lt (c : ascii) (x : string) :
  prefix "><" (String c x) = Ascii.eqb c ">" && starts_lt x.
Proof.
  destruct (prefix "><" (String c x)) eqn:E.
  - apply prefix_cons_inv in E as [<- E].
    destruct x as [|d x]; [discriminate E|].
    now apply prefix_cons_inv in E as [<- _].
  - destruct (Ascii.eqb_spec c ">") as [->|]; [|reflexivity].
    destruct x as [|d x]; [reflexivity|]. cbn [starts_lt andb].
    destruct (Ascii.eqb_spec d "<") as [->|]; [|reflexivity].
    destruct x; discriminate E.
Qed.

Lemma comma_scan_head (s : string) :
  starts_lt (Py.replace_scan "><" ">,<" 0 s) = starts_lt s.
Proof.
  destruct s as [|c s]; [reflexivity|].
  rewrite replace_scan_cons, prefix_gt_lt.
  destruct (Ascii.eqb_spec c ">") as [->|]; [|reflexivity].
  now destruct (starts_lt s).
Qed.

Lemma comma_scan_clean (s : string) :
  occurs_nowhere "><" (Py.replace_scan "><" ">,<" 0 s) = true
  /\ occurs_nowhere "><" (Py.replace_scan "><" ">,<" 1 s) = true.
Proof.
  induction s as [|c s [IH0 IH1]]; [now split|].
  split; [|exact IH0].
  rewrite replace_scan_cons.
  destruct (prefix "><" (String c s)) eqn:E.
  - change (String.length "<" - 0) with 1.
    destruct (Py.replace_scan "><" ">,<" 1 s); [reflexivity | exact IH1].
  - cbn [occurs_nowhere]. rewrite IH0, andb_true_r.
    rewrite prefix_gt_lt in *. now rewrite comma_scan_head, E.
Qed.

Lemma split_head (s : string) (sep : ascii) (p : string) (ps : list string) :
  Py.split s sep = p :: ps -> starts_lt p = true -> starts_lt s = true.
Proof.
  destruct s as [|c s]; [now intros [= <- _]|].
  rewrite split_cons. destruct (Ascii.eqb c sep); [now intros [= <- _]|].
  destruct (Py.split s sep); now intros [= <- _].
Qed.

Lemma split_clean (s : string) (sep : ascii) :
  occurs_nowhere "><" s = true ->
  Forall (fun p => occurs_nowhere "><" p = true) (Py.split s sep).
Proof.
  induction s as [|c s IH]; intros H; [now repeat constructor|].
  cbn [occurs_nowhere] in H. apply andb_prop in H as [Hc H].
  specialize (IH H). rewrite split_cons.
  destruct (Ascii.eqb c sep); [now constructor|].
  destruct (Py.split s sep) as [|p ps] eqn:E;
    [now apply split_nonempty in E|].
  inversion IH as [|? ? Hp Hps]; subst.
  constructor; [|exact Hps].
  cbn [occurs_nowhere]. rewrite Hp, andb_true_r.
  rewrite prefix_gt_lt in *.
  destruct (starts_lt p) eqn:Ep; [|now rewrite andb_false_r].
  now rewrite (split_head _ _ _ _ E Ep) in Hc.
Qed.

Lemma split_pieces_free (s : string) (sep : ascii) :
  Forall (fun p => free_of sep p = true) (Py.split s sep).
Proof.
  induction s as [|c s IH]; [now repeat constructor|].
  rewrite split_cons. destruct (Ascii.eqb c sep) eqn:Ec; [now constructor|].
  destruct (Py.split s sep) as [|p ps]; [|inversion IH as [|? ? Hp Hps]; subst];
    constructor; trivial; rewrite free_of_cons, Ec; [reflexivity | exact Hp].
Qed.

(** X14.  Whatever the stream, no token handed to [extract_speech_ids]
    contains a comma, and none contains a closing bracket directly followed
    by an opening one. *)
Theorem tokens_are_separated (outputs : string) :
  Forall (fun t => free_of "," t = true /\ occurs_nowhere "><" t = true)
    (tokens_of_stream outputs).
Proof.
  unfold tokens_of_stream, speech_tokens_of, Py.replace.
  apply Forall_forall. intros t Ht. split.
  - pose proof (split_pieces_free
                  (Py.replace_scan "><" ">,<" 0 (strip_start outputs)) ",") as F.
    rewrite Forall_forall in F. now apply F.
  - pose proof (split_clean _ ","
                  (proj1 (comma_scan_clean (strip_start outputs)))) as F.
    rewrite Forall_forall in F. now apply F.
Qed.

(** ** A bracketed token between two speech tokens *)

(** A pattern that ends with its only [>] and is found in front of a text
    whose head ends with [>] lies inside that head. *)
Lemma prefix_upto_gt (x z y : string) :
  free_of ">" x = true ->
  prefix (x ++ ">") ((z ++ ">") ++ y) = true ->
  prefix (x ++ ">") (z ++ ">") = true.
Proof.
  revert z; induction x as [|c x IH]; intros z Hx H.
  - destruct z as [|d z]; [reflexivity|].
    apply prefix_cons_inv in H as [<- _]. cbn [append prefix].
    destruct (ascii_dec ">" ">") as [_|n]; [|now elim n].
    now destruct (z ++ ">").
  - rewrite free_of_cons in Hx. apply andb_prop in Hx as [Hc Hx].
    destruct z as [|d z]; apply prefix_cons_inv in H as [-> H].
    + discriminate Hc.
    + cbn [append prefix].
      destruct (ascii_dec d d) as [_|n]; [|now elim n]. now apply IH.
Qed.

(** Line 55 passes over a text that ends with [>] and holds no start
    sentinel, whatever follows it. *)
Lemma strip_scan_through (z y : string) :
  occurs_nowhere SPEECH_GENERATION_START (z ++ ">") = true ->
  Py.replace_scan SPEECH_GENERATION_START "" 0 ((z ++ ">") ++ y) =
  (z ++ ">") ++ Py.replace_scan SPEECH_GENERATION_START "" 0 y.
Proof.
  induction z as [|c z IH]; intros H.
  - unfold SPEECH_GENERATION_START. cbn [append].
    now rewrite replace_scan_other by discriminate.
  - cbn [append occurs_nowhere] in H. apply andb_prop in H as [Hc H].
    apply negb_true_iff in Hc.
    assert (N : prefix SPEECH_GENERATION_START ((String c z ++ ">") ++ y)
                = false).
    { destruct (prefix SPEECH_GENERATION_START ((String c z ++ ">") ++ y))
        eqn:E; [|reflexivity].
      change SPEECH_GENERATION_START
        with (String "<" START_body ++ ">") in E, Hc.
      apply (prefix_upto_gt (String "<" START_body) (String c z) y eq_refl)
        in E.
      cbn [append] in E, Hc. congruence. }
    unfold SPEECH_GENERATION_START in *. cbn [append] in *.
    rewrite replace_scan_cons, N. now rewrite (IH H).
Qed.

Lemma strip_scan_gt (r : string) :
  Py.replace_scan SPEECH_GENERATION_START "" 0 (String ">" r) =
  String ">" (Py.replace_scan SPEECH_GENERATION_START "" 0 r).
Proof.
  unfold SPEECH_GENERATION_START. now apply replace_scan_other.
Qed.

(** Line 63 at a joint: what precedes a [><] is treated as if it ended
    there, and the scan starts afresh after the joint. *)
Lemma comma_scan_joint (w rest : string) (k : nat) :
  k <= String.length w ->
  Py.replace_scan "><" ">,<" k (w ++ "><" ++ rest) =
  Py.replace_scan "><" ">,<" k (w ++ ">")
  ++ ",<" ++ Py.replace_scan "><" ">,<" 0 rest.
Proof.
  revert k; induction w as [|c w IH]; intros k Hk.
  - cbn [String.length] in Hk. replace k with 0 by lia.
    change ("" ++ "><" ++ rest) with ("><" ++ rest).
    rewrite (replace_scan_match ">" "<" ">,<" rest). reflexivity.
  - cbn [String.length] in Hk. destruct k as [|k].
    + change (String c w ++ "><" ++ rest) with (String c (w ++ "><" ++ rest)).
      change (String c w ++ ">") with (String c (w ++ ">")).
      rewrite !replace_scan_cons, !prefix_gt_lt.
      assert (S : starts_lt (w ++ "><" ++ rest) = starts_lt (w ++ ">"))
        by now destruct w.
      rewrite S.
      destruct (Ascii.eqb c ">" && starts_lt (w ++ ">")) eqn:E.
      * apply andb_prop in E as [_ E].
        assert (1 <= String.length w) by (destruct w; [discriminate E | cbn; lia]).
        change (String.length "<" - 0) with 1.
        rewrite IH by assumption. now rewrite append_assoc.
      * rewrite IH by lia. reflexivity.
    + change (String c w ++ "><" ++ rest) with (String c (w ++ "><" ++ rest)).
      change (String c w ++ ">") with (String c (w ++ ">")).
      cbn [Py.replace_scan]. apply IH. lia.
Qed.

Lemma comma_scan_bracketed (b : string) :
  free_of ">" b = true ->
  Py.replace_scan "><" ">,<" 0 (String "<" b ++ ">") = String "<" b ++ ">".
Proof.
  intros H. rewrite comma_scan_plain; [reflexivity|].
  now rewrite free_of_cons, H.
Qed.

(** Lines 55 to 66 on a bracketed token between two speech tokens: the
    speech tokens come out whole, and the token in the middle is cut as it
    would be alone. *)
Lemma tokens_of_sandwich (a b : Z) (body : string) :
  occurs_nowhere SPEECH_GENERATION_START (bracketed body) = true ->
  tokens_of_stream (speech_token a ++ bracketed body ++ speech_token b) =
  speech_token a :: (speech_tokens_of (bracketed body) ++ [speech_token b])%list.
Proof.
  intros Hs.
  destruct (speech_body_good a) as [Pa _]. apply plain_parts in Pa as (Alt & Agt & Ac).
  destruct (speech_body_good b) as [Pb _]. apply plain_parts in Pb as (Blt & Bgt & Bc).
  assert (Eu : bracketed body = String "<" body ++ ">") by reflexivity.
  assert (E1 : speech_token a ++ bracketed body ++ speech_token b =
               String "<" (speech_body a
                 ++ String ">" ((String "<" body ++ ">")
                      ++ String "<" (speech_body b ++ ">")))).
  { rewrite !speech_token_body. unfold bracketed. cbn [append].
    now rewrite !append_assoc. }
  assert (S1 : strip_start (speech_token a ++ bracketed body ++ speech_token b)
               = speech_token a ++ bracketed body ++ speech_token b).
  { rewrite E1. unfold strip_start, Py.replace.
    change (Py.replace_scan "<|SPEECH_GENERATION_START|>")
      with (Py.replace_scan SPEECH_GENERATION_START).
    rewrite strip_scan_speech, (strip_scan_plain _ _ Alt). do 2 f_equal.
    rewrite strip_scan_gt. f_equal.
    rewrite Eu in Hs. rewrite (strip_scan_through _ _ Hs). f_equal.
    rewrite strip_scan_speech, (strip_scan_plain _ _ Blt). reflexivity. }
  unfold tokens_of_stream. rewrite S1. unfold speech_tokens_of, Py.replace.
  assert (E : speech_token a ++ bracketed body ++ speech_token b =
              String "<" (speech_body a)
              ++ "><" ++ (body ++ "><" ++ (speech_body b ++ ">"))).
  { rewrite E1. cbn [append]. rewrite ?append_assoc. reflexivity. }
  rewrite E. rewrite !comma_scan_joint by (cbn [String.length]; lia).
  rewrite (comma_scan_bracketed _ Agt).
  rewrite (comma_scan_plain (speech_body b) ">" Bgt).
  change (Py.replace_scan "><" ">,<" 0 ">") with ">".
  assert (Ru : Py.replace_scan "><" ">,<" 0 (bracketed body)
               = String "<" (Py.replace_scan "><" ">,<" 0 (body ++ ">"))).
  { rewrite Eu. cbn [append]. now rewrite replace_scan_other by discriminate. }
  rewrite Ru.
  transitivity
    (Py.split
       ((String "<" (speech_body a) ++ ">")
        ++ String ","
             (String "<" (Py.replace_scan "><" ">,<" 0 (body ++ ">"))
              ++ String "," (String "<" (speech_body b ++ ">")))) ",").
  { cbn [append]. now rewrite ?append_assoc. }
  rewrite split_sep_app, split_sep_app.
  rewrite (split_free "," (String "<" (speech_body a) ++ ">"))
    by (rewrite free_of_append, free_of_cons, Ac; reflexivity).
  rewrite (split_free "," (String "<" (speech_body b ++ ">")))
    by (rewrite free_of_cons, free_of_append, Bc; reflexivity).
  rewrite !speech_token_body. unfold bracketed. cbn [append app].
  now rewrite ?append_assoc.
Qed.

Lemma skipped_app (xs ys : list string) :
  skipped (xs ++ ys) = (skipped xs ++ skipped ys)%list.
Proof. apply filter_app. Qed.

(** A token with no comma and no [><] inside is not cut by lines 63 and
    66. *)
Lemma speech_tokens_of_whole (u : string) :
  free_of "," u = true -> occurs_nowhere "><" u = true ->
  speech_tokens_of u = [u].
Proof.
  intros Hc Hb. unfold speech_tokens_of, Py.replace.
  assert (E : Py.replace_scan "><" ">,<" 0 u = u).
  { clear Hc. induction u as [|c u IH]; [reflexivity|].
    cbn [occurs_nowhere] in Hb. apply andb_prop in Hb as [Hc Hb].
    apply negb_true_iff in Hc. rewrite replace_scan_cons, Hc.
    now rewrite (IH Hb). }
  rewrite E. now apply split_free.
Qed.

(** ** Signs of the ids *)

Lemma int_nonneg_unsigned (s : string) (v : Z) :
  minus_signed s = false -> Py.int s = Some v -> (0 <= v)%Z.
Proof.
  unfold minus_signed, Py.int.
  destruct (Py.lstrip s) as [|c s']; [discriminate|].
  intros ->. destruct (Ascii.eqb c "+"); apply unsigned_literal_nonneg.
Qed.

Lemma ids_of_sign (tokens : list string) :
  Forall (fun n =>
            (0 <= n)%Z
            \/ exists t, In t tokens /\ speech_shaped t = true
                         /\ minus_signed (num_str_of t) = true
                         /\ Py.int (num_str_of t) = Some n)
    (ids_of tokens).
Proof.
  induction tokens as [|t tokens IH]; [constructor|].
  assert (IH' : Forall (fun n =>
            (0 <= n)%Z
            \/ exists t', In t' (t :: tokens) /\ speech_shaped t' = true
                          /\ minus_signed (num_str_of t') = true
                          /\ Py.int (num_str_of t') = Some n)
            (ids_of tokens)).
  { eapply Forall_impl; [|exact IH].
    intros n [Hn|(t' & Hin & H)]; [now left|].
    right. exists t'. split; [now right | exact H]. }
  cbn [ids_of]. destruct (speech_shaped t) eqn:Es; [|exact IH'].
  destruct (Py.int (num_str_of t)) as [num|] eqn:Ei; [|exact IH'].
  constructor; [|exact IH'].
  destruct (minus_signed (num_str_of t)) eqn:Em.
  - right. exists t. split; [now left | auto].
  - left. now apply (int_nonneg_unsigned (num_str_of t)).
Qed.

(** ** The claims *)

(** C1 (amended).  On every stream in which each token that starts with
    [<|s_] and ends with [|>] encloses text [int] accepts, the parsing
    lines terminate normally and return the integers of those tokens in
    order, and every other token (the end sentinel, any text without that
    prefix or suffix) is skipped and recorded as unexpected. *)
Theorem parse_passable_returns (outputs : string) :
  forallb passable (tokens_of_stream outputs) = true ->
  outcome (parse outputs) = inr (ids_of (tokens_of_stream outputs))
  /\ unexpected (events (parse outputs)) = skipped (tokens_of_stream outputs).
Proof.
  intros H. split.
  - now rewrite parse_outcome, H.
  - now apply parse_unexpected.
Qed.

Lemma parse_passable_returns_witness :
  forallb passable
    (tokens_of_stream "<|SPEECH_GENERATION_START|><|s_7|><|SPEECH_GENERATION_END|>")
  = true
  /\ outcome (parse "<|SPEECH_GENERATION_START|><|s_7|><|SPEECH_GENERATION_END|>")
     = inr [7%Z]
  /\ unexpected
       (events (parse "<|SPEECH_GENERATION_START|><|s_7|><|SPEECH_GENERATION_END|>"))
     = ["<|SPEECH_GENERATION_END|>"].
Proof.
  split; [vm_compute; reflexivity|].
  apply (parse_passable_returns
           "<|SPEECH_GENERATION_START|><|s_7|><|SPEECH_GENERATION_END|>").
  vm_compute; reflexivity.
Defined.

(* A token that is not of the form <|s_digits|> and yet is neither skipped
   nor reported: the loop raises on it. *)
Lemma parse_raises_on_non_digits :
  matches_speech_pattern "<|s_abc|>" = false
  /\ parse "<|s_abc|>" =
     ([OutOutputs "<|s_abc|>"; OutSpeechTokens ["<|s_abc|>"]], inl ValueError).
Proof.
  split; vm_compute; reflexivity.
Qed.

(** C2 (amended).  When parsing the generated stream yields zero
    recognized speech tokens, the flow does not stop: the codec's decode
    step is invoked, once, on the empty sequence (a 1 x 1 x 0 tensor). *)
Theorem tts_decodes_empty_sequence (sample : Type)
  (apply_chat_template : list message -> exn + list Z)
  (convert_tokens_to_ids : string -> Z)
  (generate : list Z -> exn + string)
  (decode_code : list (list (list Z)) -> exn + list (list (list sample)))
  (sf_write : string -> list sample -> Z -> exn + unit)
  (text : string) (prompt : list Z) (outputs : string) :
  apply_chat_template (chat text) = inr prompt ->
  generate prompt = inr outputs ->
  outcome (parse outputs) = inr [] ->
  decoded (events (tts sample apply_chat_template convert_tokens_to_ids
                     generate decode_code sf_write text))
  = [[[[]]]].
Proof.
  intros Ha Hg Hp.
  now apply (tts_decodes_parsed _ _ _ _ _ text prompt outputs []).
Qed.

Lemma tts_decodes_empty_sequence_witness :
  stub_template (chat input_text) = inr [1%Z]
  /\ stub_generate "<|SPEECH_GENERATION_END|>" [1%Z]
     = inr "<|SPEECH_GENERATION_END|>"
  /\ outcome (parse "<|SPEECH_GENERATION_END|>") = inr []
  /\ decoded (events (tts Z stub_template stub_ids
                        (stub_generate "<|SPEECH_GENERATION_END|>")
                        stub_decode stub_write input_text))
     = [[[[]]]].
Proof.
  split; [reflexivity|]. split; [reflexivity|].
  split; [vm_compute; reflexivity|].
  apply (tts_decodes_empty_sequence Z stub_template stub_ids
           (stub_generate "<|SPEECH_GENERATION_END|>") stub_decode
           stub_write input_text [1%Z] "<|SPEECH_GENERATION_END|>").
  - reflexivity.
  - reflexivity.
  - vm_compute; reflexivity.
Defined.

(* A stream holding the end sentinel only: no token is recognized, the
   codec is called on the empty sequence and the run completes. *)
Lemma empty_sequence_reaches_codec :
  outcome (parse "<|SPEECH_GENERATION_END|>") = inr []
  /\ decoded (events (stub_main "<|SPEECH_GENERATION_END|>")) = [[[[]]]]
  /\ outcome (stub_main "<|SPEECH_GENERATION_END|>") = inr tt.
Proof.
  repeat split; vm_compute; reflexivity.
Qed.

(** C3 (amended).  Round trip: for every list [L] of non-negative
    integers of at most [int_max_str_digits] (4300) decimal digits each,
    the string made of the start sentinel followed by [<|s_n|>] for each
    [n] of [L], fed to the parsing lines, gives back exactly [L] in
    order. *)
Theorem parse_round_trip (L : list Z) :
  Forall (fun n => (0 <= n)%Z /\ decimal_digits n <= Py.int_max_str_digits) L ->
  outcome (parse (stream_of L)) = inr L.
Proof.
  intros H.
  assert (H0 : Forall (fun n => (0 <= n)%Z) L).
  { eapply Forall_impl; [|exact H]. now intros n [Hn _]. }
  rewrite parse_unfold. unfold tokens_of_stream.
  rewrite (strip_start_stream_of L H0).
  destruct L as [|n L]; [reflexivity|].
  rewrite (speech_tokens_of_join n L H0). unfold extract_speech_ids.
  now rewrite (extract_loop_speech_tokens (n :: L) [] H).
Qed.

Lemma parse_round_trip_witness :
  Forall (fun n => (0 <= n)%Z /\ decimal_digits n <= Py.int_max_str_digits)
    [25105%Z; 0%Z; 8984%Z]
  /\ outcome (parse (stream_of [25105%Z; 0%Z; 8984%Z]))
     = inr [25105%Z; 0%Z; 8984%Z].
Proof.
  assert (H : Forall (fun n => (0 <= n)%Z
                               /\ decimal_digits n <= Py.int_max_str_digits)
                [25105%Z; 0%Z; 8984%Z])
    by (repeat constructor; try lia; apply Nat.leb_le; vm_compute; reflexivity).
  split; [exact H | exact (parse_round_trip _ H)].
Defined.

(* A non-negative integer of 4301 digits: int refuses the literal and the
   parsing lines raise instead of giving the list back. *)
Lemma parse_round_trip_beyond_cap :
  (0 <= 10 ^ 4300)%Z
  /\ outcome (parse (stream_of [(10 ^ 4300)%Z])) = inl ValueError.
Proof.
  split; [apply Z.pow_nonneg; lia | vm_compute; reflexivity].
Qed.

(** C4 (what the code does).  Line 55 removes the start sentinel wherever
    it occurs, not only at the start: on a stream with the sentinel between
    two speech tokens it is deleted, and the parsing lines report no
    unexpected token. *)
Theorem strip_start_removes_inner_sentinel :
  strip_start "<|s_1|><|SPEECH_GENERATION_START|><|s_2|>" = "<|s_1|><|s_2|>"
  /\ outcome (parse "<|s_1|><|SPEECH_GENERATION_START|><|s_2|>")
     = inr [1%Z; 2%Z]
  /\ unexpected (events (parse "<|s_1|><|SPEECH_GENERATION_START|><|s_2|>"))
     = [].
Proof.
  repeat split; vm_compute; reflexivity.
Qed.

(** C5.  The stream
    [<|SPEECH_GENERATION_START|><|s_25105|><|s_8984|><|s_25105|><|SPEECH_GENERATION_END|>]
    parses to [25105, 8984, 25105]. *)
Theorem parse_concrete_scenario :
  outcome
    (parse "<|SPEECH_GENERATION_START|><|s_25105|><|s_8984|><|s_25105|><|SPEECH_GENERATION_END|>")
  = inr [25105%Z; 8984%Z; 25105%Z].
Proof.
  vm_compute; reflexivity.
Qed.

(** C6.  For every text [t] the prompt has exactly two entries: a user
    turn whose content is the instruction followed by [t] between the
    text-understanding markers, then an assistant turn whose content is
    exactly the generation-start sentinel; for [Hi] the user content is
    [Convert the text to speech:<|TEXT_UNDERSTANDING_START|>Hi<|TEXT_UNDERSTANDING_END|>]. *)
Theorem chat_two_turns (t : string) :
  chat t =
  [ {| role := "user";
       content := "Convert the text to speech:<|TEXT_UNDERSTANDING_START|>"
                  ++ t ++ "<|TEXT_UNDERSTANDING_END|>" |};
    {| role := "assistant"; content := "<|SPEECH_GENERATION_START|>" |} ]
  /\ List.length (chat t) = 2
  /\ map content (firstn 1 (chat "Hi")) =
     ["Convert the text to speech:<|TEXT_UNDERSTANDING_START|>Hi<|TEXT_UNDERSTANDING_END|>"].
Proof.
  repeat split.
Qed.

(** C7 (amended).  For all non-negative [a] and [b] of at most
    [int_max_str_digits] decimal digits and every bracketed token [<body>]
    that holds no start sentinel and of which no piece, cut at its commas
    and [><] joints as lines 63 and 66 do, both starts with [<|s_] and ends
    with [|>], the stream [<|s_a|><body><|s_b|>] parses to exactly
    [a, b], and what is reported as unexpected is [<body>], piece by
    piece (by [speech_tokens_of_whole], the token itself when it has no
    comma and no [><] inside). *)
Theorem parse_skips_unrecognized (a b : Z) (body : string) :
  (0 <= a)%Z -> decimal_digits a <= Py.int_max_str_digits ->
  (0 <= b)%Z -> decimal_digits b <= Py.int_max_str_digits ->
  occurs_nowhere SPEECH_GENERATION_START (bracketed body) = true ->
  Forall (fun t => speech_shaped t = false) (speech_tokens_of (bracketed body)) ->
  outcome (parse (speech_token a ++ bracketed body ++ speech_token b))
  = inr [a; b]
  /\ unexpected
       (events (parse (speech_token a ++ bracketed body ++ speech_token b)))
     = speech_tokens_of (bracketed body).
Proof.
  intros Ha Ca Hb Cb Hs Hu.
  rewrite parse_unfold, (tokens_of_sandwich a b body Hs).
  unfold extract_speech_ids.
  rewrite (speech_token_take a _ _ Ha Ca).
  apply all_unshaped in Hu as (U1 & U2 & U3).
  rewrite (extract_loop_app _ _ _ U1), U2, U3, app_nil_r.
  rewrite (speech_token_take b _ _ Hb Cb).
  unfold events, outcome. cbn [fst snd extract_loop ret].
  rewrite app_nil_r. cbn [unexpected].
  rewrite unexpected_app, unexpected_map. cbn [unexpected].
  rewrite app_nil_r. split; reflexivity.
Qed.

Lemma parse_skips_unrecognized_witness :
  (0 <= 1)%Z /\ decimal_digits 1 <= Py.int_max_str_digits
  /\ (0 <= 2)%Z /\ decimal_digits 2 <= Py.int_max_str_digits
  /\ occurs_nowhere SPEECH_GENERATION_START (bracketed "|unknown|") = true
  /\ Forall (fun t => speech_shaped t = false)
       (speech_tokens_of (bracketed "|unknown|"))
  /\ outcome (parse "<|s_1|><|unknown|><|s_2|>") = inr [1%Z; 2%Z]
  /\ unexpected (events (parse "<|s_1|><|unknown|><|s_2|>")) = ["<|unknown|>"].
Proof.
  assert (Ha : (0 <= 1)%Z) by lia.
  assert (Ca : decimal_digits 1 <= Py.int_max_str_digits)
    by (apply Nat.leb_le; vm_compute; reflexivity).
  assert (Hb : (0 <= 2)%Z) by lia.
  assert (Cb : decimal_digits 2 <= Py.int_max_str_digits)
    by (apply Nat.leb_le; vm_compute; reflexivity).
  assert (Hs : occurs_nowhere SPEECH_GENERATION_START (bracketed "|unknown|")
               = true) by reflexivity.
  assert (Hu : Forall (fun t => speech_shaped t = false)
                 (speech_tokens_of (bracketed "|unknown|")))
    by (repeat constructor).
  repeat (split; [assumption|]).
  exact (parse_skips_unrecognized 1 2 "|unknown|" Ha Ca Hb Cb Hs Hu).
Defined.


(* Streams of that form that do not parse to the two ids: the loop raises
   on a middle token with the prefix and suffix of a speech token; a middle
   token that holds the start sentinel, which line 55 deletes, takes the
   first id with it; and int refuses a valid token of 4301 digits. *)
Lemma parse_raises_between_valid_tokens :
  matches_speech_pattern "<|s_x|>" = false
  /\ outcome (parse "<|s_1|><|s_x|><|s_2|>") = inl ValueError
  /\ outcome (parse "<|s_1|><|SPEECH_GENERATION_START|>x><|s_2|>")
     = inr [2%Z]
  /\ outcome (parse (speech_token (10 ^ 4300) ++ "<|unknown|>"
                     ++ speech_token 2))
     = inl ValueError.
Proof.
  repeat split; vm_compute; reflexivity.
Qed.


(** C8 (amended).  Every id the parsing lines return is the value [int]
    gives to the text enclosed by a token, sign included; an element of
    the returned list is negative only if it comes from a token whose
    enclosed text, blanks skipped, starts with a minus sign. *)
Theorem parse_negative_only_from_minus (outputs : string) (speech_ids : list Z) :
  outcome (parse outputs) = inr speech_ids ->
  speech_ids = ids_of (tokens_of_stream outputs)
  /\ Forall (fun n =>
               (0 <= n)%Z
               \/ exists t, In t (tokens_of_stream outputs)
                            /\ speech_shaped t = true
                            /\ minus_signed (num_str_of t) = true
                            /\ Py.int (num_str_of t) = Some n)
       speech_ids.
Proof.
  intros H. rewrite parse_outcome in H.
  destruct (forallb passable (tokens_of_stream outputs)); [|discriminate].
  injection H as <-. split; [reflexivity | apply ids_of_sign].
Qed.

Lemma parse_negative_only_from_minus_witness :
  outcome (parse "<|s_12|><|x-y|><|s_-5|>") = inr [12%Z; (-5)%Z]
  /\ [12%Z; (-5)%Z] = ids_of (tokens_of_stream "<|s_12|><|x-y|><|s_-5|>")
  /\ Forall (fun n =>
               (0 <= n)%Z
               \/ exists t, In t (tokens_of_stream "<|s_12|><|x-y|><|s_-5|>")
                            /\ speech_shaped t = true
                            /\ minus_signed (num_str_of t) = true
                            /\ Py.int (num_str_of t) = Some n)
       [12%Z; (-5)%Z].
Proof.
  assert (H : outcome (parse "<|s_12|><|x-y|><|s_-5|>") = inr [12%Z; (-5)%Z])
    by (vm_compute; reflexivity).
  split; [exact H|].
  exact (parse_negative_only_from_minus "<|s_12|><|x-y|><|s_-5|>"
           [12%Z; (-5)%Z] H).
Defined.


(* A stream on which the returned list holds a negative element. *)
Lemma parse_returns_negative_id :
  outcome (parse "<|s_-5|>") = inr [(-5)%Z]
  /\ ~ Forall (fun n => (0 <= n)%Z) [(-5)%Z].
Proof.
  split; [vm_compute; reflexivity|].
  intros H. inversion H as [|? ? Hn _]; subst. lia.
Qed.


(** C9 (amended).  Once the codec has answered with a waveform tensor,
    the run calls [sf.write] exactly once, as its only write: on the first
    channel of that tensor, a one-dimensional list of samples, for the
    fixed path [gen.wav] and at the fixed sample rate of 16000 Hz; and the
    run ends as that call ends, raising when the write raises.  The path is
    a constant of the script, not an input. *)
Theorem tts_writes_gen_wav (sample : Type)
  (apply_chat_template : list message -> exn + list Z)
  (convert_tokens_to_ids : string -> Z)
  (generate : list Z -> exn + string)
  (decode_code : list (list (list Z)) -> exn + list (list (list sample)))
  (sf_write : string -> list sample -> Z -> exn + unit)
  (text : string) (prompt : list Z) (outputs : string) (speech_ids : list Z)
  (data : list sample) (rows : list (list sample))
  (rest : list (list (list sample))) :
  apply_chat_template (chat text) = inr prompt ->
  generate prompt = inr outputs ->
  outcome (parse outputs) = inr speech_ids ->
  forallb fits_int64 speech_ids = true ->
  decode_code [[speech_ids]] = inr ((data :: rows) :: rest) ->
  writes (events (tts sample apply_chat_template convert_tokens_to_ids
                    generate decode_code sf_write text))
  = [("gen.wav", data, 16000%Z)]
  /\ outcome (tts sample apply_chat_template convert_tokens_to_ids
                generate decode_code sf_write text)
     = sf_write "gen.wav" data 16000%Z.
Proof.
  intros Ha Hg Hp Hf Hd.
  now apply (tts_writes_decoded _ _ _ _ _ text prompt outputs speech_ids
               data rows rest).
Qed.

Lemma tts_writes_gen_wav_witness :
  stub_template (chat input_text) = inr [1%Z]
  /\ stub_generate "<|s_7|><|s_8|>" [1%Z] = inr "<|s_7|><|s_8|>"
  /\ outcome (parse "<|s_7|><|s_8|>") = inr [7%Z; 8%Z]
  /\ forallb fits_int64 [7%Z; 8%Z] = true
  /\ stub_decode [[[7%Z; 8%Z]]] = inr (([7%Z; 8%Z] :: []) :: [])
  /\ writes (events (tts Z stub_template stub_ids
                       (stub_generate "<|s_7|><|s_8|>") stub_decode
                       stub_write input_text))
     = [("gen.wav", [7%Z; 8%Z], 16000%Z)]
  /\ outcome (tts Z stub_template stub_ids
                 (stub_generate "<|s_7|><|s_8|>") stub_decode
                 stub_write input_text)
     = stub_write "gen.wav" [7%Z; 8%Z] 16000%Z.
Proof.
  assert (Hp : outcome (parse "<|s_7|><|s_8|>") = inr [7%Z; 8%Z])
    by (vm_compute; reflexivity).
  split; [reflexivity|]. split; [reflexivity|]. split; [exact Hp|].
  split; [reflexivity|]. split; [reflexivity|].
  exact (tts_writes_gen_wav Z stub_template stub_ids
           (stub_generate "<|s_7|><|s_8|>") stub_decode stub_write
           input_text [1%Z] "<|s_7|><|s_8|>" [7%Z; 8%Z] [7%Z; 8%Z] [] []
           eq_refl eq_refl Hp eq_refl eq_refl).
Defined.


(* A caller wanting the audio at out.wav: the run writes gen.wav all the
   same. *)
Lemma main_ignores_requested_path :
  writes (events (stub_main "<|s_1|>")) = [("gen.wav", [1%Z], 16000%Z)]
  /\ ~ writes_only_to "out.wav" (events (stub_main "<|s_1|>")).
Proof.
  assert (E : writes (events (stub_main "<|s_1|>"))
              = [("gen.wav", [1%Z], 16000%Z)]) by (vm_compute; reflexivity).
  split; [exact E|].
  unfold writes_only_to. rewrite E. intros H.
  specialize (H _ (or_introl eq_refl)). discriminate H.
Qed.


(** C10.  On the empty stream the parsing lines return the empty list
    and emit exactly one unexpected-token diagnostic, for the empty
    fragment that splitting the empty string produces. *)
Theorem parse_empty_stream :
  tokens_of_stream "" = [""]
  /\ parse "" =
     ([OutOutputs ""; OutSpeechTokens [""]; OutUnexpected ""; OutSpeechIds []],
      inr [])
  /\ unexpected (events (parse "")) = [""].
Proof.
  repeat split.
Qed.
